(** * Guide Booker invoice renderer: a shallow embedding and its properties

    The development follows [app/models.py] (the request model and its
    defaults) and [app/pdf_generator.py] (the composition of the invoice
    story and the totals).  Python's [float] is IEEE 754 binary64; it is
    modelled with the Standard Library's executable specification of
    floating-point arithmetic ([SpecFloat], precision 53, [emax] 1024).
    Python's [int] is [Z].  An exception is a value of [result]. *)

From Stdlib Require Import ZArith List String Ascii Bool Lia QArith DecimalString.
From Stdlib Require Import Floats.SpecFloat.
From Stdlib Require DecimalZ DecimalPos.
Import ListNotations.

Local Open Scope string_scope.
Local Open Scope Z_scope.

(** ** Exceptions *)

Inductive PyError : Type :=
| OverflowError       (* int too large to convert to float *)
| ZeroDivisionError   (* float division by zero *)
| LayoutError (msg : string). (* raised by the page-layout engine *)

Inductive result (A : Type) : Type :=
| Ok (a : A)
| Raise (e : PyError).

Arguments Ok {A} a.
Arguments Raise {A} e.

Definition bind {A B : Type} (r : result A) (k : A -> result B) : result B :=
  match r with
  | Ok a => k a
  | Raise e => Raise e
  end.

Notation "x <- r ;; k" := (bind r (fun x => k))
  (at level 61, r at next level, right associativity).

Definition is_ok {A : Type} (r : result A) : bool :=
  match r with
  | Ok _ => true
  | Raise _ => false
  end.

(** [[f(x) for x in xs]] where [f] may raise: the first exception wins. *)
Fixpoint map_result {A B : Type} (f : A -> result B) (xs : list A) : result (list B) :=
  match xs with
  | [] => Ok []
  | x :: rest =>
      y <- f x ;;
      ys <- map_result f rest ;;
      Ok (y :: ys)
  end.

(** ** Python floats *)

Module PyFloat.

Definition prec : Z := 53.
Definition emax : Z := 1024.

Definition float : Type := spec_float.

Definition fadd : float -> float -> float := SFadd prec emax.
Definition fsub : float -> float -> float := SFsub prec emax.
Definition fmul : float -> float -> float := SFmul prec emax.
Definition fdiv : float -> float -> float := SFdiv prec emax.
Definition fabs : float -> float := SFabs.

(** [x == y], [x <= y], [x < y] on floats: false as soon as a NaN is
    involved, and the two zeros are equal. *)
Definition feq : float -> float -> bool := SFeqb.
Definition fle : float -> float -> bool := SFleb.
Definition flt : float -> float -> bool := SFltb.

Definition zero : float := S754_zero false.
Definition inf : float := S754_infinity false.
Definition nan : float := S754_nan.

Definition is_finite (x : float) : bool :=
  match x with
  | S754_zero _ | S754_finite _ _ _ => true
  | S754_infinity _ | S754_nan => false
  end.

Definition is_zero (x : float) : bool :=
  match x with
  | S754_zero _ => true
  | _ => false
  end.

(** The double nearest to an integer (ties to even), infinite when the
    integer is out of range. *)
Definition round_int (z : Z) : float := binary_normalize prec emax z 0 false.

(** [float(z)] for an [int]: [PyLong_AsDouble] rounds to nearest, ties to
    even, and raises [OverflowError] when the result is not finite. *)
Definition float_of_int (z : Z) : result float :=
  match round_int z with
  | S754_infinity _ => Raise OverflowError
  | f => Ok f
  end.

(** The double nearest to [n / 10^k], as a decimal literal is read. *)
Definition decimal (n : Z) (k : nat) : float :=
  match n with
  | Z0 => zero
  | Zpos p => fdiv (S754_finite false p 0) (S754_finite false (Pos.pow 10 (Pos.of_nat k)) 0)
  | Zneg p => fdiv (S754_finite true p 0) (S754_finite false (Pos.pow 10 (Pos.of_nat k)) 0)
  end.

(** [int * float]: the int operand is converted first. *)
Definition int_mul_float (z : Z) (x : float) : result float :=
  fz <- float_of_int z ;;
  Ok (fmul fz x).

(** [float / int]: the int operand is converted first, and a zero divisor
    raises. *)
Definition float_div_int (x : float) (z : Z) : result float :=
  fz <- float_of_int z ;;
  if is_zero fz then Raise ZeroDivisionError else Ok (fdiv x fz).

(** The builtin [sum] over floats, with its start value [0].  Up to
    CPython 3.11 the items are added from left to right; from 3.12 on the
    floats after the first are added with Neumaier's compensation. *)
Inductive sum_algorithm : Type := left_to_right | neumaier.

Fixpoint sum_plain (acc : float) (xs : list float) : float :=
  match xs with
  | [] => acc
  | x :: rest => sum_plain (fadd acc x) rest
  end.

Fixpoint sum_neumaier (f c : float) (xs : list float) : float :=
  match xs with
  | [] => if negb (is_zero c) && is_finite c then fadd f c else f
  | x :: rest =>
      let t := fadd f x in
      let c' :=
        if fle (fabs x) (fabs f)
        then fadd c (fadd (fsub f t) x)
        else fadd c (fadd (fsub x t) f) in
      sum_neumaier t c' rest
  end.

Definition py_sum (alg : sum_algorithm) (xs : list float) : float :=
  match xs with
  | [] => zero
  | x :: rest =>
      match alg with
      | left_to_right => sum_plain (fadd zero x) rest
      | neumaier => sum_neumaier (fadd zero x) zero rest
      end
  end.

End PyFloat.

(** ** String conversions of the interpreter *)

Module PyFormat.
Import PyFloat.

(** [str(z)] for an [int]. *)
Definition str_int (z : Z) : string := NilZero.string_of_int (Z.to_int z).

(** Digits of a non-negative integer, at least [width] of them. *)
Fixpoint zeros (n : nat) : string :=
  match n with
  | O => EmptyString
  | S k => String "0" (zeros k)
  end.

Definition zero_pad (width : nat) (z : Z) : string :=
  let s := str_int z in
  zeros (width - String.length s) ++ s.

(** The [,] option of the format mini-language: a comma before every
    group of three digits, counted from the right. *)
Fixpoint group_thousands (digits : string) : string :=
  match digits with
  | EmptyString => EmptyString
  | String c rest =>
      let n := String.length rest in
      if (Nat.ltb 0 n && Nat.eqb (n mod 3) 0)%bool
      then String c (String "," (group_thousands rest))
      else String c (group_thousands rest)
  end.

(** [round(m * 2^e * 100)], exactly, ties to even. *)
Definition hundredths (m : positive) (e : Z) : Z :=
  if 0 <=? e then Zpos m * 2 ^ e * 100
  else
    let num := Zpos m * 100 in
    let den := 2 ^ (- e) in
    let q := num / den in
    let r := num mod den in
    match 2 * r ?= den with
    | Lt => q
    | Gt => q + 1
    | Eq => if Z.even q then q else q + 1
    end.

Definition sign_prefix (s : bool) : string := if s then "-" else EmptyString.

(** The digits [n] hundredths are written with: the integer part grouped
    by thousands, a point, two decimals. *)
Definition fixed2 (n : Z) : string :=
  group_thousands (str_int (n / 100)) ++ "." ++ zero_pad 2 (n mod 100).

(** [format(x, ",.2f")]. *)
Definition format_comma_2f (x : float) : string :=
  match x with
  | S754_nan => "nan"
  | S754_infinity s => sign_prefix s ++ "inf"
  | S754_zero s => sign_prefix s ++ fixed2 0
  | S754_finite s m e => sign_prefix s ++ fixed2 (hundredths m e)
  end.

(** [repr(x)]: the shortest decimal string that reads back as [x], the
    nearest to [x] among the shortest.  A finite non-zero [x] is
    [m * 2^e]; in units of [2^(e-2)] it is [4m], and the doubles next to it
    are halfway at [4m+2] above and [4m-2] below ([4m-1] when [m] is the
    smallest normal mantissa).  Those halfway points read back as [x] when
    [m] is even. *)
Definition scale (a p v : Z) : Z := v * 2 ^ Z.max a 0 * 10 ^ Z.max (- p) 0.
Definition unit_den (a p : Z) : Z := 2 ^ Z.max (- a) 0 * 10 ^ Z.max p 0.

(** [k] with [10^k <= m * 2^e < 10^(k+1)]. *)
Definition floor_log10 (m : positive) (e : Z) : Z :=
  let k := (Z.log2 (Zpos m) + e) * 30103 / 100000 in
  let below (j : Z) := scale e j (Zpos m) <? unit_den e j in
  if below k then k - 1 else if below (k + 1) then k else k + 1.

(** The decimal [d * 10^p] nearest to [m * 2^e] that reads back as it, if
    one of the two around it does. *)
Definition nearest_decimal_at (m : positive) (e p : Z) : option Z :=
  let a := e - 2 in
  let x := 4 * Zpos m in
  let hi := x + 2 in
  let lo := if (Pos.eqb m (2 ^ 52) && (-1074 <? e))%bool then x - 1 else x - 2 in
  let den := unit_den a p in
  let reads_back (d : Z) :=
    if Z.even (Zpos m)
    then ((scale a p lo <=? d * den) && (d * den <=? scale a p hi))%bool
    else ((scale a p lo <? d * den) && (d * den <? scale a p hi))%bool in
  let d := scale a p x / den in
  let r := scale a p x mod den in
  match reads_back d, reads_back (d + 1) with
  | true, true => Some (if 2 * r <=? den then d else d + 1)
  | true, false => Some d
  | false, true => Some (d + 1)
  | false, false => None
  end.

(** Try 1, 2, ... significant digits; 17 always read back. *)
Fixpoint shortest_decimal (fuel : nat) (m : positive) (e k n : Z) : Z * Z :=
  let p := k + 1 - n in
  match fuel with
  | O => (scale (e - 2) p (4 * Zpos m) / unit_den (e - 2) p, p)
  | S fuel' =>
      match nearest_decimal_at m e p with
      | Some d => (d, p)
      | None => shortest_decimal fuel' m e k (n + 1)
      end
  end.

Fixpoint strip_zeros (fuel : nat) (d p : Z) : Z * Z :=
  match fuel with
  | O => (d, p)
  | S fuel' => if (d mod 10 =? 0) && (0 <? d) then strip_zeros fuel' (d / 10) (p + 1) else (d, p)
  end.

Definition repr_digits (digits : string) (decpt : Z) : string :=
  let len := Z.of_nat (String.length digits) in
  if (decpt <=? -4) || (16 <? decpt) then
    let mantissa :=
      match digits with
      | String c EmptyString => digits
      | String c rest => String c ("." ++ rest)
      | EmptyString => digits
      end in
    let ex := decpt - 1 in
    mantissa ++ "e" ++ (if ex <? 0 then "-" else "+") ++ zero_pad 2 (Z.abs ex)
  else if decpt <=? 0 then "0." ++ zeros (Z.to_nat (- decpt)) ++ digits
  else if len <=? decpt then digits ++ zeros (Z.to_nat (decpt - len)) ++ ".0"
  else substring 0 (Z.to_nat decpt) digits ++ "."
       ++ substring (Z.to_nat decpt) (Z.to_nat (len - decpt)) digits.

Definition float_repr (x : float) : string :=
  match x with
  | S754_nan => "nan"
  | S754_infinity s => sign_prefix s ++ "inf"
  | S754_zero s => sign_prefix s ++ "0.0"
  | S754_finite s m e =>
      let '(d0, p0) := shortest_decimal 17 m e (floor_log10 m e) 1 in
      let '(d, p) := strip_zeros 20 d0 p0 in
      let digits := str_int d in
      sign_prefix s ++ repr_digits digits (Z.of_nat (String.length digits) + p)
  end.

(** [date.strftime('%B %d, %Y')] in the C locale. *)
Record date : Type := mk_date { year : Z; month : Z; day : Z }.

Definition month_name (m : Z) : string :=
  match m with
  | 1 => "January" | 2 => "February" | 3 => "March" | 4 => "April"
  | 5 => "May" | 6 => "June" | 7 => "July" | 8 => "August"
  | 9 => "September" | 10 => "October" | 11 => "November" | 12 => "December"
  | _ => EmptyString
  end.

Definition strftime_long (d : date) : string :=
  month_name (month d) ++ " " ++ zero_pad 2 (day d) ++ ", " ++ str_int (year d).

End PyFormat.

(** ** The request model ([app/models.py]) *)

Module Models.
Import PyFloat PyFormat.

(** A single line-item on the invoice. *)
Record BookingItem : Type := mk_BookingItem {
  description : string;
  quantity : Z;
  unit_price : float
}.

(** Full payload required to generate an invoice PDF. *)
Record BookingInvoiceRequest : Type := mk_BookingInvoiceRequest {
  invoice_number : string;
  customer_name : string;
  customer_email : string;
  customer_address : string;
  booking_date : date;
  due_date : date;
  guide_name : string;
  items : list BookingItem;
  tax_rate : float;
  discount : float;
  notes : option string;
  currency : string
}.

(** The [Field] constraints: [ge=1] on the quantity, [ge=0] on the unit
    price, [min_length=1] on the items, [ge=0, le=100] on the tax rate,
    [ge=0] on the discount. *)
Definition hundred : float := round_int 100.

Definition valid_item (it : BookingItem) : bool :=
  (1 <=? quantity it) && fle zero (unit_price it).

Definition valid_request (r : BookingInvoiceRequest) : bool :=
  (Nat.leb 1 (List.length (items r)))
  && forallb valid_item (items r)
  && fle zero (tax_rate r) && fle (tax_rate r) hundred
  && fle zero (discount r).

(** The [default=] values of the optional fields. *)
Definition default_tax_rate : float := zero.
Definition default_discount : float := zero.
Definition default_notes : option string := None.
Definition default_currency : string := "USD".

Definition or_default {A : Type} (given : option A) (default : A) : A :=
  match given with
  | Some a => a
  | None => default
  end.

(** [BookingInvoiceRequest(...)]: the eight required fields, and the four
    optional ones, each supplied ([Some]) or left out ([None]). *)
Definition new_request
    (invoice_number customer_name customer_email customer_address : string)
    (booking_date due_date : date) (guide_name : string)
    (items : list BookingItem)
    (tax_rate discount : option float) (notes : option string)
    (currency : option string) : BookingInvoiceRequest :=
  {| invoice_number := invoice_number;
     customer_name := customer_name;
     customer_email := customer_email;
     customer_address := customer_address;
     booking_date := booking_date;
     due_date := due_date;
     guide_name := guide_name;
     items := items;
     tax_rate := or_default tax_rate default_tax_rate;
     discount := or_default discount default_discount;
     notes := match notes with Some s => Some s | None => default_notes end;
     currency := or_default currency default_currency |}.

(** The request with its [notes] replaced. *)
Definition with_notes (n : option string) (r : BookingInvoiceRequest)
  : BookingInvoiceRequest :=
  {| invoice_number := invoice_number r;
     customer_name := customer_name r;
     customer_email := customer_email r;
     customer_address := customer_address r;
     booking_date := booking_date r;
     due_date := due_date r;
     guide_name := guide_name r;
     items := items r;
     tax_rate := tax_rate r;
     discount := discount r;
     notes := n;
     currency := currency r |}.

End Models.

(** ** The layout library's objects, as the generator builds them *)

Module Reportlab.

Inductive Color : Type :=
| HexColor (hex : string)
| NamedColor (name : string).

(** A length in points, or a multiple of the library's [mm] unit. *)
Inductive Measure : Type :=
| points (q : Q)
| millimetres (n : Z).

Inductive StyleAttr : Type :=
| fontSize (n : Z)
| textColor (c : Color)
| leading (n : Z)
| fontName (name : string)
| alignment (n : Z)
| spaceBefore (m : Measure)
| spaceAfter (m : Measure).

(** A style of the sample stylesheet, or [ParagraphStyle(name, parent=...,
    **attrs)]. *)
Inductive ParagraphStyle : Type :=
| SampleStyle (name : string)
| DerivedStyle (name : string) (parent : ParagraphStyle) (attrs : list StyleAttr).

Definition style_name (s : ParagraphStyle) : string :=
  match s with
  | SampleStyle n => n
  | DerivedStyle n _ _ => n
  end.

Inductive CmdArg : Type :=
| ArgNum (q : Q)
| ArgColor (c : Color)
| ArgStr (s : string).

(** A [TableStyle] command [(name, (sc, sr), (ec, er), *args)]: the cells
    from column [sc], row [sr] to column [ec], row [er]. *)
Record TableCmd : Type := mk_cmd {
  cmd_name : string;
  cmd_start : Z * Z;
  cmd_stop : Z * Z;
  cmd_args : list CmdArg
}.

Inductive Cell : Type :=
| CellParagraph (text : string) (style : ParagraphStyle)
| CellString (s : string).

Inductive Flowable : Type :=
| Paragraph (text : string) (style : ParagraphStyle)
| Spacer (width height : Measure)
| Table (data : list (list Cell)) (colWidths : list string) (style : list TableCmd).

(** A negative index of a command counts from the end. *)
Definition resolve_index (n i : Z) : Z := if i <? 0 then i + n else i.

Definition covers (nrows ncols : Z) (c : TableCmd) (col row : Z) : bool :=
  let '(sc, sr) := cmd_start c in
  let '(ec, er) := cmd_stop c in
  (resolve_index ncols sc <=? col) && (col <=? resolve_index ncols ec)
  && (resolve_index nrows sr <=? row) && (row <=? resolve_index nrows er).

(** The background a cell ends up with: the colour of the last
    [BACKGROUND] command that covers it, none (the default) otherwise. *)
Definition paint (nrows ncols col row : Z) (acc : option Color) (c : TableCmd)
  : option Color :=
  if String.eqb (cmd_name c) "BACKGROUND" && covers nrows ncols c col row
  then match cmd_args c with
       | ArgColor k :: _ => Some k
       | _ => acc
       end
  else acc.

Definition cell_background (style : list TableCmd) (nrows ncols col row : Z)
  : option Color :=
  fold_left (paint nrows ncols col row) style None.

Definition cell_text (c : Cell) : string :=
  match c with
  | CellParagraph text _ => text
  | CellString s => s
  end.

End Reportlab.

(** ** The generator ([app/pdf_generator.py]) *)

Module PdfGenerator.
Import PyFloat PyFormat Models Reportlab.

(** Colour palette *)
Definition BRAND_DARK : Color := HexColor "#1a1a2e".
Definition BRAND_PRIMARY : Color := HexColor "#16213e".
Definition BRAND_ACCENT : Color := HexColor "#9f9f9f".
Definition BRAND_HIGHLIGHT : Color := HexColor "#e94560".
Definition TABLE_HEADER_BG : Color := HexColor "#9f9f9f".
Definition TABLE_ALT_ROW : Color := HexColor "#f4f6fb".
Definition LIGHT_GRAY : Color := HexColor "#e0e0e0".
Definition WHITE : Color := NamedColor "white".
Definition GRAY : Color := NamedColor "gray".

(** Format a number as currency: [f"{symbol}{value:,.2f}"]. *)
Definition _currency (value : float) (symbol : string) : string :=
  symbol ++ format_comma_2f value.

(** The dictionary of custom paragraph styles, one field per key. *)
Record StyleSheet : Type := mk_styles {
  style_title : ParagraphStyle;
  style_subtitle : ParagraphStyle;
  style_heading : ParagraphStyle;
  style_normal : ParagraphStyle;
  style_bold : ParagraphStyle;
  style_footer : ParagraphStyle;
  style_notes : ParagraphStyle
}.

Definition _build_styles : StyleSheet :=
  {| style_title :=
       DerivedStyle "InvoiceTitle" (SampleStyle "Title")
         [fontSize 28; textColor BRAND_DARK; spaceAfter (millimetres 2); leading 32];
     style_subtitle :=
       DerivedStyle "InvoiceSubtitle" (SampleStyle "Normal")
         [fontSize 10; textColor GRAY; spaceAfter (millimetres 6)];
     style_heading :=
       DerivedStyle "SectionHeading" (SampleStyle "Heading2")
         [fontSize 11; textColor BRAND_ACCENT; spaceBefore (millimetres 4);
          spaceAfter (millimetres 2)];
     style_normal :=
       DerivedStyle "NormalText" (SampleStyle "Normal")
         [fontSize 10; textColor BRAND_DARK; leading 14];
     style_bold :=
       DerivedStyle "BoldText" (SampleStyle "Normal")
         [fontSize 10; textColor BRAND_DARK; leading 14; fontName "Helvetica-Bold"];
     style_footer :=
       DerivedStyle "Footer" (SampleStyle "Normal")
         [fontSize 8; textColor GRAY; alignment 1];
     style_notes :=
       DerivedStyle "Notes" (SampleStyle "Normal")
         [fontSize 9; textColor GRAY; leading 13; spaceBefore (millimetres 4)] |}.

(** [sym = "$" if data.currency == "USD" else data.currency + " "] *)
Definition symbol_prefix (currency : string) : string :=
  if String.eqb currency "USD" then "$" else currency ++ " ".

Definition whole : (Z * Z) * (Z * Z) := ((0, 0), (-1, -1)).

(** Header *)
Definition header_table (styles : StyleSheet) (data : BookingInvoiceRequest) : Flowable :=
  Table
    [[CellParagraph "<b>Guide Booker</b>" (style_title styles);
      CellParagraph ("<b>INVOICE</b><br/>" ++ invoice_number data)
        (DerivedStyle "InvNum" (style_bold styles)
           [fontSize 14; alignment 2; textColor BRAND_HIGHLIGHT; leading 20])]]
    ["60%"; "40%"]
    [mk_cmd "VALIGN" (0, 0) (-1, -1) [ArgStr "TOP"];
     mk_cmd "LINEBELOW" (0, 0) (-1, 0) [ArgNum (3 # 2); ArgColor BRAND_HIGHLIGHT];
     mk_cmd "BOTTOMPADDING" (0, 0) (-1, 0) [ArgNum (8 # 1)]].

(** Customer + Dates *)
Definition info_left (data : BookingInvoiceRequest) : string :=
  "<b>Bill To:</b><br/>"
  ++ customer_name data ++ "<br/>"
  ++ customer_email data ++ "<br/>"
  ++ customer_address data.

Definition info_right (data : BookingInvoiceRequest) : string :=
  "<b>Booking Date:</b> " ++ strftime_long (booking_date data) ++ "<br/>"
  ++ "<b>Due Date:</b> " ++ strftime_long (due_date data) ++ "<br/>"
  ++ "<b>Guide Name:</b> " ++ guide_name data.

Definition info_table (styles : StyleSheet) (data : BookingInvoiceRequest) : Flowable :=
  Table
    [[CellParagraph (info_left data) (style_normal styles);
      CellParagraph (info_right data) (style_normal styles)]]
    ["55%"; "45%"]
    [mk_cmd "VALIGN" (0, 0) (-1, -1) [ArgStr "TOP"]].

(** Line-items table *)
Definition col_widths : list string := ["8%"; "47%"; "12%"; "15%"; "18%"].

Definition header_row (styles : StyleSheet) : list Cell :=
  [CellParagraph "<b>#</b>" (style_bold styles);
   CellParagraph "<b>Description</b>" (style_bold styles);
   CellParagraph "<b>Qty</b>" (style_bold styles);
   CellParagraph "<b>Unit Price</b>" (style_bold styles);
   CellParagraph "<b>Amount</b>" (style_bold styles)].

(** One pass of [for idx, item in enumerate(data.items, start=1)]. *)
Definition item_row (styles : StyleSheet) (sym : string) (idx : Z) (item : BookingItem)
  : result (list Cell) :=
  amount <- int_mul_float (quantity item) (unit_price item) ;;
  Ok [CellParagraph (str_int idx) (style_normal styles);
      CellParagraph (description item) (style_normal styles);
      CellParagraph (str_int (quantity item)) (style_normal styles);
      CellParagraph (_currency (unit_price item) sym) (style_normal styles);
      CellParagraph (_currency amount sym) (style_normal styles)].

Fixpoint item_rows (styles : StyleSheet) (sym : string) (idx : Z) (its : list BookingItem)
  : result (list (list Cell)) :=
  match its with
  | [] => Ok []
  | item :: rest =>
      row <- item_row styles sym idx item ;;
      rows <- item_rows styles sym (idx + 1) rest ;;
      Ok (row :: rows)
  end.

Definition base_tbl_style : list TableCmd :=
  [ (* Header row *)
    mk_cmd "BACKGROUND" (0, 0) (-1, 0) [ArgColor TABLE_HEADER_BG];
    mk_cmd "TEXTCOLOR" (0, 0) (-1, 0) [ArgColor WHITE];
    mk_cmd "FONTNAME" (0, 0) (-1, 0) [ArgStr "Helvetica-Bold"];
    (* Grid *)
    mk_cmd "GRID" (0, 0) (-1, -1) [ArgNum (1 # 2); ArgColor LIGHT_GRAY];
    mk_cmd "VALIGN" (0, 0) (-1, -1) [ArgStr "MIDDLE"];
    mk_cmd "TOPPADDING" (0, 0) (-1, -1) [ArgNum (6 # 1)];
    mk_cmd "BOTTOMPADDING" (0, 0) (-1, -1) [ArgNum (6 # 1)];
    mk_cmd "LEFTPADDING" (0, 0) (-1, -1) [ArgNum (6 # 1)] ].

(** [range(lo, hi)] *)
Definition range (lo hi : Z) : list Z :=
  map (fun k => lo + Z.of_nat k) (seq 0 (Z.to_nat (hi - lo))).

(** Alternate row colours:
    [for i in range(1, len(tbl_data)): if i % 2 == 0: tbl_style.append(...)] *)
Definition alt_row_cmd (i : Z) : TableCmd :=
  mk_cmd "BACKGROUND" (0, i) (-1, i) [ArgColor TABLE_ALT_ROW].

Definition alt_row_cmds (len : Z) : list TableCmd :=
  flat_map (fun i => if i mod 2 =? 0 then [alt_row_cmd i] else []) (range 1 len).

Definition items_table (styles : StyleSheet) (rows : list (list Cell)) : Flowable :=
  let tbl_data := header_row styles :: rows in
  Table tbl_data col_widths
    (base_tbl_style ++ alt_row_cmds (Z.of_nat (List.length tbl_data)))%list.

(** Totals *)
Record Totals : Type := mk_totals {
  subtotal : float;
  tax_amount : float;
  total : float
}.

Section Interpreter.

(** The summation algorithm of the interpreter's builtin [sum]. *)
Variable alg : sum_algorithm.

Definition compute_totals (data : BookingInvoiceRequest) : result Totals :=
  amounts <- map_result (fun i => int_mul_float (quantity i) (unit_price i)) (items data) ;;
  let subtotal := py_sum alg amounts in
  tax_amount <- float_div_int (fmul subtotal (tax_rate data)) 100 ;;
  let total := fsub (fadd subtotal tax_amount) (discount data) in
  Ok (mk_totals subtotal tax_amount total).

Definition totals_table (styles : StyleSheet) (sym : string)
    (data : BookingInvoiceRequest) (t : Totals) : Flowable :=
  Table
    [[CellString EmptyString;
      CellParagraph "<b>Subtotal</b>" (style_bold styles);
      CellParagraph (_currency (subtotal t) sym) (style_normal styles)];
     [CellString EmptyString;
      CellParagraph ("<b>Tax (" ++ float_repr (tax_rate data) ++ "%)</b>") (style_bold styles);
      CellParagraph (_currency (tax_amount t) sym) (style_normal styles)];
     [CellString EmptyString;
      CellParagraph "<b>Discount</b>" (style_bold styles);
      CellParagraph ("−" ++ _currency (discount data) sym) (style_normal styles)];
     [CellString EmptyString;
      CellParagraph "<b>TOTAL</b>" (style_bold styles);
      CellParagraph ("<b>" ++ _currency (total t) sym ++ "</b>")
        (DerivedStyle "TotalValue" (style_bold styles)
           [fontSize 13; textColor BRAND_HIGHLIGHT])]]
    ["52%"; "28%"; "20%"]
    [mk_cmd "ALIGN" (1, 0) (-1, -1) [ArgStr "RIGHT"];
     mk_cmd "LINEABOVE" (1, -1) (-1, -1) [ArgNum (3 # 2); ArgColor BRAND_HIGHLIGHT];
     mk_cmd "TOPPADDING" (0, 0) (-1, -1) [ArgNum (4 # 1)];
     mk_cmd "BOTTOMPADDING" (0, 0) (-1, -1) [ArgNum (4 # 1)]].

(** Notes: [if data.notes:] holds for a string that is neither [None] nor
    empty. *)
Definition truthy (s : option string) : bool :=
  match s with
  | None => false
  | Some EmptyString => false
  | Some (String _ _) => true
  end.

Definition notes_region (styles : StyleSheet) (data : BookingInvoiceRequest) : list Flowable :=
  if truthy (notes data)
  then [Spacer (points (1 # 1)) (millimetres 4);
        Paragraph ("<i>Notes: " ++ or_default (notes data) EmptyString ++ "</i>")
          (style_notes styles)]
  else [].

(** Footer *)
Definition footer (styles : StyleSheet) : list Flowable :=
  [Spacer (points (1 # 1)) (millimetres 12);
   Paragraph "Guide Booker · Professional Tour Guide Services · guidebooker.com"
     (style_footer styles);
   Paragraph "This is a computer-generated invoice. No signature required."
     (style_footer styles)].

(** The story handed to [doc.build], in the order it is appended to. *)
Definition build_story (data : BookingInvoiceRequest) : result (list Flowable) :=
  let styles := _build_styles in
  let sym := symbol_prefix (currency data) in
  rows <- item_rows styles sym 1 (items data) ;;
  t <- compute_totals data ;;
  Ok ([header_table styles data;
       Spacer (points (1 # 1)) (millimetres 6);
       info_table styles data;
       Spacer (points (1 # 1)) (millimetres 8);
       items_table styles rows;
       Spacer (points (1 # 1)) (millimetres 6);
       totals_table styles sym data t]
      ++ notes_region styles data
      ++ footer styles)%list.

Section Engine.

(** The page-layout engine ([SimpleDocTemplate.build] writing to the
    buffer): it turns a story into the bytes of a document or raises, and
    may read its surroundings (the clock for the document's metadata). *)
Variable ambient : Type.
Variable doc_build : ambient -> list Flowable -> result (list Byte.byte).


End Engine.
End Interpreter.




End PdfGenerator.

(** ** What is read off a composed story *)

Module Observations.
Import PyFloat PyFormat Models Reportlab PdfGenerator.

(** The notes region is the paragraph set in the notes style. *)
Definition is_notes_paragraph (f : Flowable) : bool :=
  match f with
  | Paragraph _ st => String.eqb (style_name st) "Notes"
  | _ => false
  end.

Definition has_notes_region (story : list Flowable) : bool :=
  existsb is_notes_paragraph story.

(** The cells of a data row of the item table, and the value cells of the
    totals block. *)
Definition data_row (styles : StyleSheet) (sym : string) (idx : Z)
    (item : BookingItem) (amount : float) : list Cell :=
  [CellParagraph (str_int idx) (style_normal styles);
   CellParagraph (description item) (style_normal styles);
   CellParagraph (str_int (quantity item)) (style_normal styles);
   CellParagraph (sym ++ format_comma_2f (unit_price item)) (style_normal styles);
   CellParagraph (sym ++ format_comma_2f amount) (style_normal styles)].

Definition value_texts (f : Flowable) : list string :=
  match f with
  | Table data _ _ => map (fun row => cell_text (nth 2 row (CellString EmptyString))) data
  | _ => []
  end.

(** The regions of a story by their place in the flow: the item table is
    the fifth flowable, the totals block the seventh. *)
Definition item_table_of (story : list Flowable) : option Flowable := nth_error story 4.
Definition totals_block_of (story : list Flowable) : option Flowable := nth_error story 6.

Definition table_data (f : Flowable) : list (list Cell) :=
  match f with
  | Table data _ _ => data
  | _ => []
  end.

Definition table_widths (f : Flowable) : list string :=
  match f with
  | Table _ widths _ => widths
  | _ => []
  end.

Definition table_style (f : Flowable) : list TableCmd :=
  match f with
  | Table _ _ style => style
  | _ => []
  end.

(** The unit price and the amount written in each data row, then the four
    values of the totals block. *)
Definition amount_texts (story : list Flowable) : list string :=
  match item_table_of story, totals_block_of story with
  | Some items_tbl, Some totals_tbl =>
      (flat_map
         (fun row => [cell_text (nth 3 row (CellString EmptyString));
                      cell_text (nth 4 row (CellString EmptyString))])
         (tl (table_data items_tbl))
       ++ value_texts totals_tbl)%list
  | _, _ => []
  end.

(** The story of a composition that succeeded. *)
Definition story_of (r : result (list Flowable)) : list Flowable :=
  match r with
  | Ok story => story
  | Raise _ => []
  end.

(** Thousands separators and exactly two decimal places: an optional
    minus sign, one to three digits, groups of a comma and three digits, a
    point, two digits. *)
Definition is_digit (c : ascii) : bool :=
  Nat.leb 48 (nat_of_ascii c) && Nat.leb (nat_of_ascii c) 57.

Fixpoint all_digits (s : string) : bool :=
  match s with
  | EmptyString => true
  | String c rest => is_digit c && all_digits rest
  end.

Fixpoint three_digit_groups (s : string) : bool :=
  match s with
  | EmptyString => true
  | String sep (String a (String b (String c rest))) =>
      Ascii.eqb sep "," && is_digit a && is_digit b && is_digit c
      && three_digit_groups rest
  | _ => false
  end.

Definition well_grouped (s : string) : bool :=
  match s with
  | String a rest =>
      is_digit a
      && (three_digit_groups rest
          || match rest with
             | String b rest2 =>
                 is_digit b
                 && (three_digit_groups rest2
                     || match rest2 with
                        | String c rest3 => is_digit c && three_digit_groups rest3
                        | EmptyString => false
                        end)
             | EmptyString => false
             end)
  | EmptyString => false
  end.

(** The text before the first point, and the text after it. *)
Fixpoint split_at_point (s : string) : option (string * string) :=
  match s with
  | EmptyString => None
  | String c rest =>
      if Ascii.eqb c "." then Some (EmptyString, rest)
      else match split_at_point rest with
           | Some (before, after) => Some (String c before, after)
           | None => None
           end
  end.

Definition unsigned_money_shape (s : string) : bool :=
  match split_at_point s with
  | Some (whole_part, String a (String b EmptyString)) =>
      well_grouped whole_part && is_digit a && is_digit b
  | _ => false
  end.

Definition money_shape (s : string) : bool :=
  match s with
  | String c rest =>
      if Ascii.eqb c "-" then unsigned_money_shape rest else unsigned_money_shape s
  | EmptyString => false
  end.

(** Helpers to state how [group_thousands] proceeds: the groups that
    follow a leading group, a text without a point, a text of two digits. *)
Definition tail_groups (ds : string) : string :=
  match ds with
  | EmptyString => EmptyString
  | _ => String "," (group_thousands ds)
  end.

Fixpoint point_free (s : string) : bool :=
  match s with
  | EmptyString => true
  | String c rest => negb (Ascii.eqb c ".") && point_free rest
  end.

Definition two_digits (s : string) : bool :=
  match s with
  | String a (String b EmptyString) => is_digit a && is_digit b
  | _ => false
  end.



End Observations.

(** ** Sample requests (the fixtures of [tests/test_main.py] and the edge
    cases discussed below) *)

Module Samples.
Import PyFloat PyFormat Models Reportlab PdfGenerator.

(** The float literals of the samples, read once. *)
Definition f75_00 : float := Eval vm_compute in decimal 7500 2.
Definition f45_00 : float := Eval vm_compute in decimal 4500 2.
Definition f7_0 : float := Eval vm_compute in decimal 70 1.
Definition f10_00 : float := Eval vm_compute in decimal 1000 2.
Definition f100_0 : float := Eval vm_compute in decimal 1000 1.
Definition f2500_0 : float := Eval vm_compute in decimal 25000 1.
Definition f1_0 : float := Eval vm_compute in round_int 1.
Definition f5_0 : float := Eval vm_compute in round_int 5.
Definition f1e308 : float := Eval vm_compute in round_int (10 ^ 308).

(** [sample_payload] *)
Definition sample_request : BookingInvoiceRequest :=
  new_request "INV-2026-001" "Jane Doe" "jane@example.com"
    "123 Main St, Bangkok 10110" (mk_date 2026 2 17) (mk_date 2026 3 17)
    "Somchai Jaidee"
    [mk_BookingItem "City Walking Tour – Full Day" 2 f75_00;
     mk_BookingItem "Temple Guide – Half Day" 1 f45_00]
    (Some f7_0) (Some f10_00)
    (Some "Thank you for choosing Guide Booker!") (Some "USD").

(** [test_single_item_invoice] *)
Definition single_item_request : BookingInvoiceRequest :=
  new_request "INV-SINGLE" "Solo Traveler" "solo@test.com" "456 Side St"
    (mk_date 2026 1 1) (mk_date 2026 2 1) "Guide A"
    [mk_BookingItem "Single Tour" 1 f100_0]
    None None None None.

(** [test_non_usd_currency] *)
Definition thb_request : BookingInvoiceRequest :=
  new_request "INV-THB" "Thai Customer" "thai@test.com" "Bangkok"
    (mk_date 2026 1 1) (mk_date 2026 2 1) "Guide C"
    [mk_BookingItem "Tour" 1 f2500_0]
    None None None (Some "THB").

(** The sample payload with [notes] set to the empty string. *)
Definition empty_notes_request : BookingInvoiceRequest :=
  with_notes (Some EmptyString) sample_request.

(** Ten units at [1e308] each, every optional field left out. *)
Definition overflowing_request : BookingInvoiceRequest :=
  new_request "INV-BIG" "Solo Traveler" "solo@test.com" "456 Side St"
    (mk_date 2026 1 1) (mk_date 2026 2 1) "Guide A"
    [mk_BookingItem "Charter" 10 f1e308]
    None None None None.


(** One unit at [1.0], discount [5.0]. *)
Definition discounted_request : BookingInvoiceRequest :=
  new_request "INV-NEG" "Solo Traveler" "solo@test.com" "456 Side St"
    (mk_date 2026 1 1) (mk_date 2026 2 1) "Guide A"
    [mk_BookingItem "Postcard" 1 f1_0]
    None (Some f5_0) None None.


End Samples.

(** ** Classes of floats, to state what the totals can be *)

Module FloatClasses.
Import PyFloat.

Definition is_nan (x : float) : bool :=
  match x with
  | S754_nan => true
  | _ => false
  end.

(** A zero of either sign, a positive number or the positive infinity:
    what [0 <= x] accepts. *)
Definition not_negative (x : float) : bool :=
  match x with
  | S754_zero _ => true
  | S754_finite s _ _ => negb s
  | S754_infinity s => negb s
  | S754_nan => false
  end.

(** A zero, a number or an infinity of the given sign. *)
Definition has_sign (sx : bool) (x : float) : bool :=
  match x with
  | S754_zero s | S754_finite s _ _ | S754_infinity s => Bool.eqb s sx
  | S754_nan => false
  end.

End FloatClasses.

(** ** Well-formed tables *)

Module Layout.
Import Reportlab.

(** A cell index of a command, once resolved, falls inside the table. *)
Definition index_in_range (n i : Z) : bool :=
  (0 <=? resolve_index n i) && (resolve_index n i <? n).

Definition cmd_in_range (nrows ncols : Z) (c : TableCmd) : bool :=
  let '(sc, sr) := cmd_start c in
  let '(ec, er) := cmd_stop c in
  index_in_range ncols sc && index_in_range nrows sr
  && index_in_range ncols ec && index_in_range nrows er
  && (resolve_index ncols sc <=? resolve_index ncols ec)
  && (resolve_index nrows sr <=? resolve_index nrows er).

(** A table has at least one row, every row has one cell per column
    width, and every style command addresses cells of the table. *)
Definition well_formed (f : Flowable) : bool :=
  match f with
  | Table data widths style =>
      negb (Nat.eqb (List.length data) 0)
      && forallb (fun row => Nat.eqb (List.length row) (List.length widths)) data
      && forallb (cmd_in_range (Z.of_nat (List.length data))
                    (Z.of_nat (List.length widths))) style
  | _ => true
  end.

End Layout.

(** ** Reading an amount back *)

Module MoneyText.

(** The integer a decimal text denotes. *)
Definition int_text (s : string) : option Z :=
  option_map Z.of_int (NilZero.int_of_string s).

Fixpoint remove_commas (s : string) : string :=
  match s with
  | EmptyString => EmptyString
  | String c rest =>
      if Ascii.eqb c "," then remove_commas rest else String c (remove_commas rest)
  end.

(** The hundredths an unsigned amount denotes: the digits before the
    point without their separators, then two digits. *)
Definition read_unsigned_money (s : string) : option Z :=
  match Observations.split_at_point s with
  | Some (whole_part, fraction) =>
      match int_text (remove_commas whole_part), int_text fraction with
      | Some a, Some b =>
          if Observations.two_digits fraction then Some (a * 100 + b) else None
      | _, _ => None
      end
  | None => None
  end.

(** The sign and the hundredths of an amount. *)
Definition read_money (s : string) : option (bool * Z) :=
  match s with
  | String c rest =>
      if Ascii.eqb c "-" then option_map (pair true) (read_unsigned_money rest)
      else option_map (pair false) (read_unsigned_money s)
  | EmptyString => None
  end.

End MoneyText.

(** ** The endpoint ([app/main.py]) *)

Module Main.
Import Models Reportlab PdfGenerator.



Section Endpoint.

Variable alg : PyFloat.sum_algorithm.
Variable ambient : Type.
Variable doc_build : ambient -> list Flowable -> result (list Byte.byte).


End Endpoint.

End Main.

(** ** Texts to compare the tax label and the dates with *)

Module Labels.
Import PyFloat PyFormat Reportlab.

(** [k] hundredths written with the decimals they need, at least one:
    [7.0], [7.5], [7.25]. *)
Definition plain_decimal (k : Z) : string :=
  str_int (k / 100) ++ "."
  ++ (if k mod 10 =? 0 then str_int (k mod 100 / 10) else zero_pad 2 (k mod 100)).

(** The labels of a totals block: the second cell of each row. *)
Definition label_texts (f : Flowable) : list string :=
  match f with
  | Table data _ _ => map (fun row => cell_text (nth 1 row (CellString EmptyString))) data
  | _ => []
  end.

(** A date of the calendar, as far as the format is concerned. *)
Definition plausible_date (d : date) : bool :=
  (1 <=? month d) && (month d <=? 12) && (1 <=? day d) && (day d <=? 31)
  && (0 <=? year d).

End Labels.

(** * Properties *)

(** ** Floats: conversion of integers *)

Module FloatFacts.
Import PyFloat.

(** The number of binary digits of a mantissa bounds it on both sides. *)
Lemma digits2_pos_size (p : positive) : digits2_pos p = Pos.size p.
Proof. induction p; simpl; congruence. Qed.

Lemma digits2_pos_upper (p : positive) : Zpos p < 2 ^ Zpos (digits2_pos p).
Proof.
  rewrite digits2_pos_size.
  pose proof (Pos.size_gt p) as H.
  change 2 with (Zpos 2); rewrite <- Pos2Z.inj_pow. 
  apply Pos2Z.pos_lt_pos. exact H.
Qed.

Lemma digits2_pos_lower (p : positive) : 2 ^ (Zpos (digits2_pos p) - 1) <= Zpos p.
Proof.
  rewrite digits2_pos_size.
  pose proof (Pos.size_le p) as H.
  assert (H2 : 2 ^ Zpos (Pos.size p) <= 2 * Zpos p).
  { change 2 with (Zpos 2); rewrite <- Pos2Z.inj_pow. change (2 * Zpos p) with (Zpos p~0). apply Pos2Z.pos_le_pos. exact H. }
  replace (Zpos (Pos.size p)) with (Z.succ (Zpos (Pos.size p) - 1)) in H2 by lia.
  rewrite Z.pow_succ_r in H2 by lia. lia.
Qed.

Lemma digits2_pos_le (p : positive) (k : Z) : Zpos p < 2 ^ k -> Zpos (digits2_pos p) <= k.
Proof.
  intros H. pose proof (digits2_pos_lower p) as L.
  destruct (Z_le_gt_dec (Zpos (digits2_pos p)) k) as [|G]; [assumption|exfalso].
  assert (2 ^ k <= 2 ^ (Zpos (digits2_pos p) - 1)).
  { destruct (Z_lt_le_dec k 0).
    - rewrite (Z.pow_neg_r 2 k) by lia. apply Z.pow_nonneg. lia.
    - apply Z.pow_le_mono_r; lia. }
  lia.
Qed.

(** shr_1 halves the mantissa and records the bit that falls off. *)
Lemma shr_1_m (mrs : shr_record) :
  0 <= shr_m mrs -> shr_m (shr_1 mrs) = shr_m mrs / 2 /\ shr_r (shr_1 mrs) = Z.odd (shr_m mrs).
Proof.
  destruct mrs as [m r s]; simpl. intros H.
  rewrite <- Z.div2_div.
  destruct m as [|p|p]; [| destruct p | lia]; simpl; split; reflexivity.
Qed.

Lemma shr_iter (p : positive) :
  forall mrs, 0 <= shr_m mrs ->
    shr_m (iter_pos shr_1 p mrs) = shr_m mrs / 2 ^ Zpos p
    /\ shr_r (iter_pos shr_1 p mrs) = Z.testbit (shr_m mrs) (Zpos p - 1).
Proof.
  induction p as [p IH|p IH|]; intros mrs Hm; simpl iter_pos.
  - destruct (shr_1_m mrs Hm) as [M1 R1].
    assert (H1 : 0 <= shr_m (shr_1 mrs)) by (rewrite M1; apply Z.div_pos; lia).
    destruct (IH _ H1) as [M2 R2].
    assert (H2 : 0 <= shr_m (iter_pos shr_1 p (shr_1 mrs))).
    { rewrite M2. apply Z.div_pos; [lia | apply Z.pow_pos_nonneg; lia]. }
    destruct (IH _ H2) as [M3 R3].
    rewrite M3, R3, M2, M1.
    assert (P : 0 < 2 ^ Zpos p) by (apply Z.pow_pos_nonneg; lia).
    split.
    + rewrite !Z.div_div by lia.
      replace (Zpos p~1) with (1 + Zpos p + Zpos p) by lia.
      rewrite !Z.pow_add_r by lia. change (2 ^ 1) with 2.
      f_equal. ring.
    + rewrite Z.div_pow2_bits by lia.
      change 2 with (2 ^ 1) at 1. rewrite Z.div_pow2_bits by lia.
      f_equal. lia.
  - destruct (IH _ Hm) as [M1 R1].
    assert (H1 : 0 <= shr_m (iter_pos shr_1 p mrs)).
    { rewrite M1. apply Z.div_pos; [lia | apply Z.pow_pos_nonneg; lia]. }
    destruct (IH _ H1) as [M2 R2].
    rewrite M2, R2, M1.
    assert (P : 0 < 2 ^ Zpos p) by (apply Z.pow_pos_nonneg; lia).
    split.
    + rewrite Z.div_div by lia.
      replace (Zpos p~0) with (Zpos p + Zpos p) by lia.
      rewrite Z.pow_add_r by lia. reflexivity.
    + rewrite Z.div_pow2_bits by lia. f_equal. lia.
  - destruct (shr_1_m mrs Hm) as [M1 R1]. rewrite M1, R1. split.
    + reflexivity.
    + symmetry. apply Z.bit0_odd.
Qed.

Lemma fexp_normal (e : Z) : -1021 <= e -> fexp prec emax e = e - 53.
Proof. intros H. unfold fexp, emin, prec, emax. lia. Qed.

Lemma round_nearest_even_bounds (mrs : shr_record) :
  let m' := round_nearest_even (shr_m mrs) (loc_of_shr_record mrs) in
  shr_m mrs <= m' <= shr_m mrs + 1 /\ (m' <> shr_m mrs -> shr_r mrs = true).
Proof.
  destruct mrs as [m [|] [|]]; simpl; try destruct (Z.even m); split; try lia; congruence.
Qed.

Lemma shr_fexp_exact_noshift (m e : Z) :
  fexp prec emax (Zdigits2 m + e) - e <= 0 ->
  shr_fexp prec emax m e loc_Exact = (Build_shr_record m false false, e).
Proof.
  intros H. unfold shr_fexp, shr. simpl shr_record_of_loc.
  destruct (fexp prec emax (Zdigits2 m + e) - e); try reflexivity. lia.
Qed.

Lemma shr_fexp_exact_shift (m e : Z) (p : positive) :
  fexp prec emax (Zdigits2 m + e) - e = Zpos p ->
  shr_fexp prec emax m e loc_Exact
  = (iter_pos shr_1 p (Build_shr_record m false false), e + Zpos p).
Proof.
  intros H. unfold shr_fexp, shr. simpl shr_record_of_loc. rewrite H. reflexivity.
Qed.

Lemma digits2_pos_gt (p : positive) (k : Z) : 2 ^ k <= Zpos p -> k < Zpos (digits2_pos p).
Proof.
  intros H. pose proof (digits2_pos_upper p) as U.
  destruct (Z_lt_le_dec k (Zpos (digits2_pos p))) as [|G]; [assumption|exfalso].
  assert (2 ^ Zpos (digits2_pos p) <= 2 ^ k) by (apply Z.pow_le_mono_r; lia).
  lia.
Qed.

Lemma digits2_pos_iter_xO (k mx : positive) :
  Zpos (digits2_pos (Pos.iter xO mx k)) = Zpos (digits2_pos mx) + Zpos k.
Proof.
  induction k as [|k IH] using Pos.peano_ind.
  - simpl. lia.
  - rewrite Pos.iter_succ. simpl digits2_pos. lia.
Qed.

(** A mantissa already in format goes through the rounding unchanged. *)
Lemma binary_round_aux_in_format (sx : bool) (m : positive) (e : Z) :
  Zpos (digits2_pos m) = 53 -> -1074 <= e <= 971 ->
  binary_round_aux prec emax sx (Zpos m) e loc_Exact = S754_finite sx m e.
Proof.
  intros D E. unfold binary_round_aux.
  assert (S0 : fexp prec emax (Zdigits2 (Zpos m) + e) - e <= 0).
  { simpl Zdigits2. rewrite D, fexp_normal by lia. lia. }
  rewrite (shr_fexp_exact_noshift _ _ S0). cbv beta iota zeta. simpl shr_m.
  simpl loc_of_shr_record. simpl round_nearest_even.
  rewrite (shr_fexp_exact_noshift _ _ S0). simpl shr_m.
  unfold emax, prec. destruct (Z.leb_spec e (1024 - 53)); [reflexivity | lia].
Qed.





End FloatFacts.

(** ** Formatting: the shape of a value written with [,.2f] *)

Module FormatFacts.
Import PyFloat PyFormat Observations.

(** Facts on a remainder by three, for [lia]. *)
Local Ltac mod3 t :=
  pose proof (Nat.div_mod_eq t 3);
  pose proof (Nat.mod_upper_bound t 3 ltac:(discriminate)).

(** Decimal digits of a non-negative integer. *)
Lemma string_of_uint_digits (d : Decimal.uint) :
  all_digits (NilEmpty.string_of_uint d) = true.
Proof. induction d; simpl; auto. Qed.

Lemma str_int_digits (z : Z) :
  0 <= z -> all_digits (str_int z) = true /\ str_int z <> EmptyString.
Proof.
  intros H. unfold str_int, NilZero.string_of_int.
  destruct z as [|p|p]; [split; [reflexivity | discriminate] | | lia].
  simpl Z.to_int. unfold NilZero.string_of_uint.
  destruct (Pos.to_uint p) eqn:E; try (split; [reflexivity | discriminate]);
    (split; [rewrite <- E | simpl; discriminate]);
    rewrite E; apply (string_of_uint_digits (_ _)).
Qed.

Lemma group_cons_boundary (a : ascii) (rest : string) :
  (String.length rest mod 3 = 0)%nat ->
  group_thousands (String a rest) = String a (tail_groups rest).
Proof.
  intros H. cbn [group_thousands]. cbv zeta. rewrite H.
  destruct rest; reflexivity.
Qed.

Lemma group_cons_inside (a : ascii) (rest : string) :
  (String.length rest mod 3 <> 0)%nat ->
  group_thousands (String a rest) = String a (group_thousands rest).
Proof.
  intros H. cbn [group_thousands]. cbv zeta.
  destruct (Nat.eqb_spec (String.length rest mod 3) 0); [contradiction|].
  rewrite andb_false_r. reflexivity.
Qed.

Lemma tail_groups_shape (n : nat) :
  forall ds, String.length ds = (3 * n)%nat -> all_digits ds = true ->
             three_digit_groups (tail_groups ds) = true.
Proof.
  induction n as [|n IH]; intros ds L D.
  - destruct ds; [reflexivity | discriminate].
  - destruct ds as [|a [|b [|c rest]]]; simpl in L; try lia.
    simpl in D. apply andb_prop in D as [Da D]. apply andb_prop in D as [Db D].
    apply andb_prop in D as [Dc D].
    assert (Lr : String.length rest = (3 * n)%nat) by lia.
    unfold tail_groups.
    rewrite group_cons_inside
      by (cbn [String.length]; mod3 (S (S (String.length rest))); lia).
    rewrite group_cons_inside
      by (cbn [String.length]; mod3 (S (String.length rest)); lia).
    rewrite group_cons_boundary by (mod3 (String.length rest); lia).
    simpl. rewrite Da, Db, Dc. simpl. apply IH; assumption.
Qed.

Lemma tail_groups_ok (ds : string) :
  (String.length ds mod 3 = 0)%nat -> all_digits ds = true ->
  three_digit_groups (tail_groups ds) = true.
Proof.
  intros L D. apply (tail_groups_shape (String.length ds / 3)); [| assumption].
  mod3 (String.length ds). lia.
Qed.

Lemma group_thousands_shape (ds : string) :
  ds <> EmptyString -> all_digits ds = true -> well_grouped (group_thousands ds) = true.
Proof.
  intros N D.
  destruct ds as [|a r1]; [contradiction|].
  simpl in D. apply andb_prop in D as [Da D1].
  assert (C : (String.length r1 mod 3 = 0 \/ String.length r1 mod 3 = 1
               \/ String.length r1 mod 3 = 2)%nat)
    by (mod3 (String.length r1); lia).
  destruct C as [C|[C|C]].
  - rewrite group_cons_boundary by assumption. unfold well_grouped.
    rewrite Da, tail_groups_ok by assumption. reflexivity.
  - destruct r1 as [|b r2]; [cbn in C; discriminate|].
    simpl in D1. apply andb_prop in D1 as [Db D2].
    cbn [String.length] in C.
    assert (C2 : (String.length r2 mod 3 = 0)%nat)
      by (mod3 (String.length r2); mod3 (S (String.length r2)); lia).
    rewrite group_cons_inside by (cbn [String.length]; lia).
    rewrite group_cons_boundary by assumption.
    unfold well_grouped. rewrite Da, Db, tail_groups_ok by assumption.
    rewrite orb_true_r. reflexivity.
  - destruct r1 as [|b [|c r3]]; [cbn in C; discriminate | cbn in C; discriminate |].
    simpl in D1. apply andb_prop in D1 as [Db D2]. apply andb_prop in D2 as [Dc D3].
    cbn [String.length] in C.
    assert (C3 : (String.length r3 mod 3 = 0)%nat)
      by (mod3 (String.length r3); mod3 (S (S (String.length r3))); lia).
    assert (C2 : (S (String.length r3) mod 3 <> 0)%nat)
      by (mod3 (String.length r3); mod3 (S (String.length r3)); lia).
    rewrite group_cons_inside by (cbn [String.length]; lia).
    rewrite group_cons_inside by (cbn [String.length]; assumption).
    rewrite group_cons_boundary by assumption.
    unfold well_grouped. rewrite Da, Db, Dc, tail_groups_ok by assumption.
    rewrite !orb_true_r. reflexivity.
Qed.

Lemma digit_not_point (c : ascii) : is_digit c = true -> Ascii.eqb c "." = false.
Proof.
  intros H. destruct (Ascii.eqb_spec c "."); [subst; discriminate | reflexivity].
Qed.

Lemma digit_not_minus (c : ascii) : is_digit c = true -> Ascii.eqb c "-" = false.
Proof.
  intros H. destruct (Ascii.eqb_spec c "-"); [subst; discriminate | reflexivity].
Qed.

Lemma group_thousands_point_free (ds : string) :
  all_digits ds = true -> point_free (group_thousands ds) = true.
Proof.
  induction ds as [|c rest IH]; intros D; [reflexivity|].
  simpl in D. apply andb_prop in D as [Dc D].
  cbn [group_thousands]. cbv zeta.
  destruct (_ && _)%bool; cbn [point_free];
    rewrite (digit_not_point c Dc), IH by assumption; reflexivity.
Qed.

Lemma split_at_point_app (s t : string) :
  point_free s = true -> split_at_point (s ++ String "." t) = Some (s, t).
Proof.
  induction s as [|c rest IH]; intros P; [reflexivity|].
  simpl in P. apply andb_prop in P as [Pc P].
  simpl. destruct (Ascii.eqb c "."); [discriminate|].
  rewrite IH by assumption. reflexivity.
Qed.

Lemma zero_pad_two_digits (k : Z) : 0 <= k < 100 -> two_digits (zero_pad 2 k) = true.
Proof.
  assert (A : forall n, (n < 100)%nat -> two_digits (zero_pad 2 (Z.of_nat n)) = true).
  { intros n B. do 100 (destruct n as [|n]; [vm_compute; reflexivity|]). lia. }
  intros H. rewrite <- (Z2Nat.id k) by lia. apply A. lia.
Qed.

Lemma hundredths_nonneg (m : positive) (e : Z) : 0 <= hundredths m e.
Proof.
  unfold hundredths. destruct (0 <=? e) eqn:E.
  - apply Z.leb_le in E. assert (0 <= 2 ^ e) by (apply Z.pow_nonneg; lia). nia.
  - apply Z.leb_gt in E.
    assert (P : 0 < 2 ^ (- e)) by (apply Z.pow_pos_nonneg; lia).
    assert (0 <= Zpos m * 100 / 2 ^ (- e)) by (apply Z.div_pos; lia).
    destruct (_ ?= _); [destruct (Z.even _)| |]; lia.
Qed.

Lemma fixed2_shape (n : Z) : 0 <= n -> unsigned_money_shape (fixed2 n) = true.
Proof.
  intros H. unfold fixed2, unsigned_money_shape.
  assert (Q : 0 <= n / 100) by (apply Z.div_pos; lia).
  destruct (str_int_digits _ Q) as [D N].
  change ("." ++ zero_pad 2 (n mod 100)) with (String "." (zero_pad 2 (n mod 100))).
  rewrite split_at_point_app by (apply group_thousands_point_free; assumption).
  pose proof (zero_pad_two_digits (n mod 100) ltac:(apply Z.mod_pos_bound; lia)) as T.
  unfold two_digits in T.
  destruct (zero_pad 2 (n mod 100)) as [|a [|b [|]]]; try discriminate.
  rewrite group_thousands_shape by assumption. exact T.
Qed.

Lemma fixed2_starts_with_digit (n : Z) :
  0 <= n -> exists c rest, fixed2 n = String c rest /\ is_digit c = true.
Proof.
  intros H. unfold fixed2.
  assert (Q : 0 <= n / 100) by (apply Z.div_pos; lia).
  destruct (str_int_digits _ Q) as [D N].
  destruct (str_int (n / 100)) as [|c rest]; [contradiction|].
  simpl in D. apply andb_prop in D as [Dc _].
  cbn [group_thousands]. cbv zeta.
  destruct (_ && _)%bool; simpl; eauto.
Qed.

(** A finite value is written with thousands separators and exactly two
    decimal places. *)
Lemma format_comma_2f_shape (x : float) :
  is_finite x = true -> money_shape (format_comma_2f x) = true.
Proof.
  destruct x as [s|s| |s m e]; try discriminate; intros _.
  - destruct s; reflexivity.
  - unfold format_comma_2f.
    pose proof (hundredths_nonneg m e) as H.
    destruct s; cbn [sign_prefix].
    + change ("-" ++ fixed2 (hundredths m e)) with (String "-" (fixed2 (hundredths m e))).
      cbn [money_shape]. rewrite Ascii.eqb_refl. apply fixed2_shape; assumption.
    + change (EmptyString ++ fixed2 (hundredths m e)) with (fixed2 (hundredths m e)).
      destruct (fixed2_starts_with_digit _ H) as (c & rest & E & Dc).
      pose proof (fixed2_shape _ H) as S. rewrite E in *.
      cbn [money_shape]. rewrite (digit_not_minus c Dc). exact S.
Qed.

End FormatFacts.

(** ** The monad, the totals and the story *)

Module StoryFacts.
Import PyFloat PyFormat Models Reportlab PdfGenerator Observations FloatFacts.

Lemma bind_Ok_inv {A B : Type} (r : result A) (k : A -> result B) (b : B) :
  bind r k = Ok b -> exists a, r = Ok a /\ k a = Ok b.
Proof. destruct r as [a|e]; simpl; intros H; [eauto | discriminate]. Qed.

Lemma map_result_Forall2 {A B : Type} (f : A -> result B) (xs : list A) :
  forall ys, map_result f xs = Ok ys -> Forall2 (fun x y => f x = Ok y) xs ys.
Proof.
  induction xs as [|x rest IH]; simpl; intros ys H.
  - injection H as <-. constructor.
  - apply bind_Ok_inv in H as (y & Hy & H).
    apply bind_Ok_inv in H as (ys' & Hys & H).
    injection H as <-. constructor; auto.
Qed.

(** ** Floats: totals without tax and discount *)

Lemma feq_refl_finite (x : float) : is_finite x = true -> feq x x = true.
Proof.
  destruct x as [s|s| |s m e]; try discriminate; intros _; unfold feq, SFeqb; simpl.
  - reflexivity.
  - destruct s; rewrite Z.compare_refl, Pos.compare_cont_refl; reflexivity.
Qed.

Lemma hundred_value : hundred = S754_finite false 7036874417766400 (-46).
Proof. reflexivity. Qed.

Lemma float_div_int_100 (x : float) : float_div_int x 100 = Ok (fdiv x hundred).
Proof. reflexivity. Qed.

Lemma total_without_tax_and_discount (sub rate disc : float) :
  is_finite sub = true -> is_zero rate = true -> is_zero disc = true ->
  feq (fsub (fadd sub (fdiv (fmul sub rate) hundred)) disc) sub = true.
Proof.
  intros F R D. rewrite hundred_value.
  destruct rate as [sr| | |]; try discriminate.
  destruct disc as [sd| | |]; try discriminate.
  destruct sub as [s|s| |s m e]; try discriminate.
  - destruct s, sr, sd; reflexivity.
  - unfold fmul, fdiv, fadd, fsub. simpl.
    apply (feq_refl_finite (S754_finite s m e)). reflexivity.
Qed.


(** ** The story: what a successful composition returned *)

Lemma item_row_inv (styles : StyleSheet) (sym : string) (idx : Z)
    (item : BookingItem) (row : list Cell) :
  item_row styles sym idx item = Ok row ->
  exists amount,
    int_mul_float (quantity item) (unit_price item) = Ok amount
    /\ row = data_row styles sym idx item amount.
Proof.
  unfold item_row. intros H. apply bind_Ok_inv in H as (amount & Ha & H).
  injection H as <-. exists amount. split; [assumption | reflexivity].
Qed.

Lemma item_rows_spec (styles : StyleSheet) (sym : string) (its : list BookingItem) :
  forall idx rows,
    item_rows styles sym idx its = Ok rows ->
    List.length rows = List.length its
    /\ forall i item,
        nth_error its i = Some item ->
        exists amount,
          int_mul_float (quantity item) (unit_price item) = Ok amount
          /\ nth_error rows i
             = Some (data_row styles sym (idx + Z.of_nat i) item amount).
Proof.
  induction its as [|it rest IH]; simpl; intros idx rows H.
  - injection H as <-. split; [reflexivity|]. intros [|i] item E; discriminate.
  - apply bind_Ok_inv in H as (row & Hrow & H).
    apply bind_Ok_inv in H as (rows' & Hrows & H).
    injection H as <-.
    destruct (IH _ _ Hrows) as [L N].
    split; [simpl; congruence|].
    intros [|i] item E; simpl in E.
    + injection E as <-. apply item_row_inv in Hrow as (amount & Ha & ->).
      exists amount. rewrite Z.add_0_r. auto.
    + destruct (N i item E) as (amount & Ha & Hn).
      exists amount. split; [assumption|].
      replace (idx + Z.of_nat (S i)) with (idx + 1 + Z.of_nat i) by lia. exact Hn.
Qed.

Lemma compute_totals_inv (alg : sum_algorithm) (data : BookingInvoiceRequest) (t : Totals) :
  compute_totals alg data = Ok t ->
  exists amounts,
    Forall2 (fun it a => int_mul_float (quantity it) (unit_price it) = Ok a)
      (items data) amounts
    /\ subtotal t = py_sum alg amounts
    /\ tax_amount t = fdiv (fmul (subtotal t) (tax_rate data)) hundred
    /\ total t = fsub (fadd (subtotal t) (tax_amount t)) (discount data).
Proof.
  unfold compute_totals. intros H.
  apply bind_Ok_inv in H as (amounts & Ha & H).
  rewrite float_div_int_100 in H. simpl in H. injection H as <-.
  exists amounts. split; [apply map_result_Forall2; assumption|].
  simpl. auto.
Qed.

Lemma build_story_inv (alg : sum_algorithm) (data : BookingInvoiceRequest)
    (story : list Flowable) :
  build_story alg data = Ok story ->
  exists rows t,
    item_rows _build_styles (symbol_prefix (currency data)) 1 (items data) = Ok rows
    /\ compute_totals alg data = Ok t
    /\ story
       = ([header_table _build_styles data;
           Spacer (points (1 # 1)) (millimetres 6);
           info_table _build_styles data;
           Spacer (points (1 # 1)) (millimetres 8);
           items_table _build_styles rows;
           Spacer (points (1 # 1)) (millimetres 6);
           totals_table _build_styles (symbol_prefix (currency data)) data t]
          ++ notes_region _build_styles data
          ++ footer _build_styles)%list.
Proof.
  unfold build_story. intros H.
  apply bind_Ok_inv in H as (rows & Hrows & H).
  apply bind_Ok_inv in H as (t & Ht & H).
  injection H as <-. eauto.
Qed.

(** ** The story: when the composition succeeds *)






End StoryFacts.

(** * The claims *)

Import PyFloat PyFormat Models Reportlab PdfGenerator Observations Samples.
Import FloatFacts FormatFacts StoryFacts.

(** An amount of the invoice is [float(quantity) * unit_price]. *)
Lemma int_mul_float_inv (z : Z) (x a : float) :
  int_mul_float z x = Ok a -> a = fmul (round_int z) x.
Proof.
  unfold int_mul_float, float_of_int. intros H.
  destruct (round_int z); simpl in H; try discriminate;
    injection H as <-; reflexivity.
Qed.

Lemma amounts_are_products (its : list BookingItem) (amounts : list float) :
  Forall2 (fun it a => int_mul_float (quantity it) (unit_price it) = Ok a) its amounts ->
  amounts = map (fun it => fmul (round_int (quantity it)) (unit_price it)) its.
Proof.
  induction 1 as [|it a its amounts H _ IH]; simpl; [reflexivity|].
  rewrite (int_mul_float_inv _ _ _ H), IH. reflexivity.
Qed.

(** Up to CPython 3.11 the builtin [sum] is the fold of [+] from [0]. *)
Lemma py_sum_left_to_right_fold (xs : list float) :
  py_sum left_to_right xs = fold_left fadd xs zero.
Proof.
  destruct xs as [|x rest]; [reflexivity|].
  cbn [py_sum fold_left]. generalize (fadd zero x).
  induction rest as [|y rest IH]; intros acc; cbn [sum_plain fold_left];
    [reflexivity | apply IH].
Qed.

(** C1, counterexample: a valid request with no tax and no discount whose
    subtotal overflows to infinity; its tax amount is [inf * 0.0 / 100], not
    a number, and so is its total, which is therefore not the subtotal. *)
Lemma overflowing_total_is_not_the_subtotal :
  valid_request overflowing_request = true
  /\ is_zero (tax_rate overflowing_request) = true
  /\ is_zero (discount overflowing_request) = true
  /\ is_ok (build_story left_to_right overflowing_request) = true
  /\ compute_totals left_to_right overflowing_request = Ok (mk_totals inf nan nan)
  /\ compute_totals neumaier overflowing_request = Ok (mk_totals inf nan nan)
  /\ feq nan inf = false.
Proof. repeat split; vm_compute; reflexivity. Qed.

(** C1 (amended): the totals of a rendered invoice.  The amounts are the
    float products [quantity * unit_price]; the subtotal is their builtin
    [sum]; the tax amount is [subtotal * tax_rate / 100]; the total is
    [subtotal + tax_amount - discount], each in float arithmetic, and these
    are the values the totals block is built from.  When the subtotal is
    finite, a zero tax rate and a zero discount give a total equal to the
    subtotal.  Nothing clamps the total: a valid request has a negative
    one. *)
Theorem totals_follow_the_formulas (alg : sum_algorithm)
    (data : BookingInvoiceRequest) (story : list Flowable) :
  build_story alg data = Ok story ->
  exists t,
    totals_block_of story
    = Some (totals_table _build_styles (symbol_prefix (currency data)) data t)
    /\ subtotal t
       = py_sum alg
           (map (fun it => fmul (round_int (quantity it)) (unit_price it)) (items data))
    /\ tax_amount t = fdiv (fmul (subtotal t) (tax_rate data)) hundred
    /\ total t = fsub (fadd (subtotal t) (tax_amount t)) (discount data)
    /\ (is_finite (subtotal t) = true ->
        is_zero (tax_rate data) = true -> is_zero (discount data) = true ->
        feq (total t) (subtotal t) = true)
    /\ exists d td,
        valid_request d = true /\ compute_totals alg d = Ok td
        /\ flt (total td) zero = true.
Proof.
  intros H. apply build_story_inv in H as (rows & t & _ & Ht & ->).
  exists t. split; [reflexivity|].
  apply compute_totals_inv in Ht as (amounts & Ha & Hs & Hx & Htot).
  apply amounts_are_products in Ha. subst amounts.
  repeat split; try assumption.
  - intros F R D. rewrite Htot, Hx. apply total_without_tax_and_discount; assumption.
  - exists discounted_request.
    destruct alg; eexists; (split; [|split]); vm_compute; reflexivity.
Qed.

Lemma totals_follow_the_formulas_witness :
  build_story left_to_right sample_request
  = Ok (story_of (build_story left_to_right sample_request))
  /\ exists t,
      totals_block_of (story_of (build_story left_to_right sample_request))
      = Some (totals_table _build_styles (symbol_prefix (currency sample_request))
                sample_request t)
      /\ subtotal t
         = py_sum left_to_right
             (map (fun it => fmul (round_int (quantity it)) (unit_price it))
                (items sample_request))
      /\ tax_amount t = fdiv (fmul (subtotal t) (tax_rate sample_request)) hundred
      /\ total t = fsub (fadd (subtotal t) (tax_amount t)) (discount sample_request)
      /\ (is_finite (subtotal t) = true ->
          is_zero (tax_rate sample_request) = true ->
          is_zero (discount sample_request) = true ->
          feq (total t) (subtotal t) = true)
      /\ exists d td,
          valid_request d = true /\ compute_totals left_to_right d = Ok td
          /\ flt (total td) zero = true.
Proof.
  assert (H : build_story left_to_right sample_request
              = Ok (story_of (build_story left_to_right sample_request)))
    by (vm_compute; reflexivity).
  split; [exact H|].
  exact (totals_follow_the_formulas left_to_right sample_request _ H).
Defined.

(** The scenario of the specification: two items (2 at 75.00, 1 at 45.00),
    tax rate 7.0, discount 10.00. *)
Example sample_totals_block :
  option_map value_texts (totals_block_of (story_of (build_story left_to_right sample_request)))
  = Some ["$195.00"; "$13.65"; "−$10.00"; "<b>$198.65</b>"]
  /\ option_map value_texts (totals_block_of (story_of (build_story neumaier sample_request)))
     = Some ["$195.00"; "$13.65"; "−$10.00"; "<b>$198.65</b>"].
Proof. split; vm_compute; reflexivity. Qed.

(** The amounts a story shows, from the rows and the totals it was built
    from. *)
Lemma amount_texts_of_story (alg : sum_algorithm) (data : BookingInvoiceRequest)
    (story : list Flowable) :
  build_story alg data = Ok story ->
  exists t,
    compute_totals alg data = Ok t
    /\ amount_texts story
       = List.app
           (flat_map
              (fun it =>
                 [_currency (unit_price it) (symbol_prefix (currency data));
                  _currency (fmul (round_int (quantity it)) (unit_price it))
                    (symbol_prefix (currency data))])
              (items data))
           [_currency (subtotal t) (symbol_prefix (currency data));
            _currency (tax_amount t) (symbol_prefix (currency data));
            "−" ++ _currency (discount data) (symbol_prefix (currency data));
            "<b>" ++ _currency (total t) (symbol_prefix (currency data)) ++ "</b>"].
Proof.
  intros H. apply build_story_inv in H as (rows & t & Hrows & Ht & ->).
  exists t. split; [assumption|].
  unfold amount_texts, item_table_of, totals_block_of. cbn [nth_error app].
  cbn [items_table table_data tl totals_table value_texts map nth cell_text].
  f_equal. clear Ht t.
  generalize dependent rows. generalize 1.
  induction (items data) as [|it rest IH]; intros idx rows Hrows; cbn [item_rows] in Hrows.
  - injection Hrows as <-. reflexivity.
  - apply bind_Ok_inv in Hrows as (row & Hrow & Hrows).
    apply bind_Ok_inv in Hrows as (rows' & Hrows' & Hrows).
    injection Hrows as <-.
    apply item_row_inv in Hrow as (amount & Ha & ->).
    apply int_mul_float_inv in Ha. subst amount.
    cbn [flat_map]. rewrite (IH _ _ Hrows'). reflexivity.
Qed.

(** C2, counterexample: in the story of a valid request the amount of ten
    units at [1e308] is written [$inf]: the prefix, then a text with no
    decimal places. *)
Lemma overflowing_amount_has_no_decimals :
  valid_request overflowing_request = true
  /\ In "$inf" (amount_texts (story_of (build_story left_to_right overflowing_request)))
  /\ _currency inf (symbol_prefix (currency overflowing_request)) = "$inf"
  /\ money_shape (format_comma_2f inf) = false.
Proof.
  split; [vm_compute; reflexivity|].
  split; [vm_compute; tauto|].
  split; vm_compute; reflexivity.
Qed.

(** C2 (amended): every amount a rendered invoice shows (the unit price and
    the amount of each row, the subtotal, the tax amount, the discount
    after its minus sign, the total inside its bold markup) is the symbol
    prefix followed by the value formatted with [,.2f]; the prefix is [$]
    when the currency is [USD] and the currency followed by one space
    otherwise; and for every finite value that format is thousands
    separators and exactly two decimal places. *)
Theorem amounts_are_prefixed_and_formatted (alg : sum_algorithm)
    (data : BookingInvoiceRequest) (story : list Flowable) :
  build_story alg data = Ok story ->
  (currency data = "USD" -> symbol_prefix (currency data) = "$")
  /\ (currency data <> "USD" -> symbol_prefix (currency data) = currency data ++ " ")
  /\ symbol_prefix "THB" = "THB "
  /\ (forall (value : float) (sym : string),
        _currency value sym = sym ++ format_comma_2f value
        /\ (is_finite value = true -> money_shape (format_comma_2f value) = true))
  /\ exists t,
      compute_totals alg data = Ok t
      /\ amount_texts story
         = List.app
             (flat_map
                (fun it =>
                   [_currency (unit_price it) (symbol_prefix (currency data));
                    _currency (fmul (round_int (quantity it)) (unit_price it))
                      (symbol_prefix (currency data))])
                (items data))
             [_currency (subtotal t) (symbol_prefix (currency data));
              _currency (tax_amount t) (symbol_prefix (currency data));
              "−" ++ _currency (discount data) (symbol_prefix (currency data));
              "<b>" ++ _currency (total t) (symbol_prefix (currency data))
              ++ "</b>"].
Proof.
  intros H. repeat split.
  - intros ->. reflexivity.
  - intros N. unfold symbol_prefix.
    destruct (String.eqb_spec (currency data) "USD"); [contradiction | reflexivity].
  - apply format_comma_2f_shape.
  - apply amount_texts_of_story in H as (t & Ht & E). exists t. split; [assumption|].
    exact E.
Qed.

Lemma amounts_are_prefixed_and_formatted_witness :
  build_story left_to_right thb_request
  = Ok (story_of (build_story left_to_right thb_request))
  /\ amount_texts (story_of (build_story left_to_right thb_request))
     = ["THB 2,500.00"; "THB 2,500.00"; "THB 2,500.00"; "THB 0.00"; "−THB 0.00";
        "<b>THB 2,500.00</b>"].
Proof.
  assert (H : build_story left_to_right thb_request
              = Ok (story_of (build_story left_to_right thb_request)))
    by (vm_compute; reflexivity).
  split; [exact H|].
  destruct (amounts_are_prefixed_and_formatted left_to_right thb_request _ H)
    as (_ & _ & _ & _ & t & Ht & E).
  rewrite E. vm_compute in Ht. injection Ht as <-. vm_compute. reflexivity.
Defined.




(** The notes region of a story, from the request's notes. *)
Lemma notes_region_of_story (alg : sum_algorithm) (data : BookingInvoiceRequest)
    (story : list Flowable) :
  build_story alg data = Ok story ->
  has_notes_region story = truthy (notes data)
  /\ skipn 7 story = (notes_region _build_styles data ++ footer _build_styles)%list.
Proof.
  intros H. apply build_story_inv in H as (rows & t & _ & _ & ->).
  split; [|reflexivity].
  unfold has_notes_region, notes_region.
  destruct (truthy (notes data)); reflexivity.
Qed.

(** C4, counterexample: the request of the tests with [notes] present and
    empty is valid, and its story has no notes region. *)
Lemma empty_notes_have_no_region :
  valid_request empty_notes_request = true
  /\ notes empty_notes_request = Some EmptyString
  /\ is_ok (build_story left_to_right empty_notes_request) = true
  /\ has_notes_region (story_of (build_story left_to_right empty_notes_request)) = false
  /\ has_notes_region (story_of (build_story neumaier empty_notes_request)) = false.
Proof. repeat split; vm_compute; reflexivity. Qed.

(** C4 (amended): a rendered invoice whose request has no notes ([None])
    has no notes region: the totals block is followed by the footer at
    once, nothing is left blank.  One whose request has notes that are not
    empty has the region, after the totals block and a spacer: the
    paragraph [<i>Notes: {notes}</i>] in the notes style. *)
Theorem notes_region_when_notes_are_given (alg : sum_algorithm)
    (data : BookingInvoiceRequest) (story : list Flowable) :
  build_story alg data = Ok story ->
  (notes data = None ->
   has_notes_region story = false
   /\ skipn 7 story = footer _build_styles
   /\ List.length story = 10%nat)
  /\ (forall text,
        notes data = Some text -> text <> EmptyString ->
        has_notes_region story = true
        /\ nth_error story 8
           = Some (Paragraph ("<i>Notes: " ++ text ++ "</i>") (style_notes _build_styles))
        /\ style_name (style_notes _build_styles) = "Notes"
        /\ skipn 9 story = footer _build_styles
        /\ List.length story = 12%nat).
Proof.
  intros H. apply build_story_inv in H as (rows & t & _ & _ & ->).
  split.
  - intros N. unfold notes_region, has_notes_region. rewrite N.
    repeat split; reflexivity.
  - intros text N T. unfold notes_region, has_notes_region. rewrite N.
    destruct text as [|c rest]; [contradiction|].
    repeat split; reflexivity.
Qed.

Lemma notes_region_when_notes_are_given_witness :
  build_story left_to_right sample_request
  = Ok (story_of (build_story left_to_right sample_request))
  /\ nth_error (story_of (build_story left_to_right sample_request)) 8
     = Some (Paragraph "<i>Notes: Thank you for choosing Guide Booker!</i>"
               (style_notes _build_styles)).
Proof.
  assert (H : build_story left_to_right sample_request
              = Ok (story_of (build_story left_to_right sample_request)))
    by (vm_compute; reflexivity).
  split; [exact H|].
  destruct (notes_region_when_notes_are_given left_to_right sample_request _ H)
    as [_ P].
  destruct (P "Thank you for choosing Guide Booker!" eq_refl ltac:(discriminate))
    as (_ & E & _).
  exact E.
Defined.

(** C9: a request whose notes are the empty string is rendered as the same
    request with no notes: the same story, flowable for flowable, with no
    notes region, because the test is on the truth value of the string. *)
Theorem empty_notes_render_as_no_notes (alg : sum_algorithm)
    (data : BookingInvoiceRequest) :
  notes data = Some EmptyString ->
  truthy (notes data) = false
  /\ truthy None = false
  /\ build_story alg data = build_story alg (with_notes None data)
  /\ forall story,
      build_story alg data = Ok story ->
      has_notes_region story = false /\ skipn 7 story = footer _build_styles.
Proof.
  intros N. split; [rewrite N; reflexivity|]. split; [reflexivity|].
  assert (E : build_story alg data = build_story alg (with_notes None data)).
  { unfold build_story, compute_totals, notes_region. rewrite N. reflexivity. }
  split; [exact E|].
  intros story H. apply notes_region_of_story in H as [R S].
  rewrite R, S. unfold notes_region. rewrite N. split; reflexivity.
Qed.

Lemma empty_notes_render_as_no_notes_witness :
  notes empty_notes_request = Some EmptyString
  /\ build_story left_to_right empty_notes_request
     = build_story left_to_right (with_notes None empty_notes_request).
Proof.
  split; [reflexivity|].
  exact (proj1 (proj2 (proj2
           (empty_notes_render_as_no_notes left_to_right empty_notes_request eq_refl)))).
Defined.

(** C5: the item table of a rendered invoice is the fifth flowable of the
    story: a header row (index, description, quantity, unit price, amount)
    over columns of 8, 47, 12, 15 and 18 percent, then one data row per
    line item, in the order of the items, the row of the [i]-th item (from
    zero) carrying the index [i + 1]; a single item gives a single data row
    whose index is written [1]. *)
Theorem item_table_has_one_row_per_item (alg : sum_algorithm)
    (data : BookingInvoiceRequest) (story : list Flowable) :
  build_story alg data = Ok story ->
  exists rows style,
    item_table_of story
    = Some (Table (header_row _build_styles :: rows)
              ["8%"; "47%"; "12%"; "15%"; "18%"] style)
    /\ map cell_text (header_row _build_styles)
       = ["<b>#</b>"; "<b>Description</b>"; "<b>Qty</b>"; "<b>Unit Price</b>";
          "<b>Amount</b>"]
    /\ List.length rows = List.length (items data)
    /\ (forall i item,
          nth_error (items data) i = Some item ->
          nth_error rows i
          = Some (data_row _build_styles (symbol_prefix (currency data))
                    (Z.of_nat i + 1) item
                    (fmul (round_int (quantity item)) (unit_price item))))
    /\ (forall item,
          items data = [item] ->
          exists cells,
            rows = [CellParagraph "1" (style_normal _build_styles) :: cells]).
Proof.
  intros H. apply build_story_inv in H as (rows & t & Hrows & _ & ->).
  exists rows. eexists. split; [reflexivity|]. split; [reflexivity|].
  destruct (item_rows_spec _ _ _ _ _ Hrows) as [L N].
  split; [exact L|]. split.
  - intros i item E. destruct (N i item E) as (amount & Ha & Hn).
    apply int_mul_float_inv in Ha. subst amount.
    rewrite Hn. rewrite (Z.add_comm 1). reflexivity.
  - intros item E. rewrite E in L, N.
    destruct (N 0%nat item eq_refl) as (amount & _ & Hn).
    destruct rows as [|row [|row' rest]]; simpl in L; try discriminate.
    simpl in Hn. injection Hn as ->. eexists. reflexivity.
Qed.

Lemma item_table_has_one_row_per_item_witness :
  build_story left_to_right single_item_request
  = Ok (story_of (build_story left_to_right single_item_request))
  /\ option_map
       (fun tbl => map (map cell_text) (table_data tbl))
       (item_table_of (story_of (build_story left_to_right single_item_request)))
     = Some [["<b>#</b>"; "<b>Description</b>"; "<b>Qty</b>"; "<b>Unit Price</b>";
              "<b>Amount</b>"];
             ["1"; "Single Tour"; "1"; "$100.00"; "$100.00"]].
Proof.
  assert (H : build_story left_to_right single_item_request
              = Ok (story_of (build_story left_to_right single_item_request)))
    by (vm_compute; reflexivity).
  split; [exact H|].
  destruct (item_table_has_one_row_per_item left_to_right single_item_request _ H)
    as (rows & style & E & _ & L & N & _).
  rewrite E. cbn [option_map table_data].
  destruct rows as [|row [|row' rest]]; try discriminate L.
  pose proof (N 0%nat _ eq_refl) as Hn. cbn [nth_error] in Hn.
  injection Hn as ->. vm_compute. reflexivity.
Defined.

(** [range(lo, hi)] holds the integers from [lo] up to [hi], excluded. *)
Lemma in_range (lo hi i : Z) : In i (range lo hi) <-> lo <= i < hi.
Proof.
  unfold range. rewrite in_map_iff. split.
  - intros (k & <- & Hk). apply in_seq in Hk. lia.
  - intros H. exists (Z.to_nat (i - lo)). split; [lia|]. apply in_seq. lia.
Qed.

Lemma mod_2_even (i : Z) : (i mod 2 =? 0) = Z.even i.
Proof.
  rewrite (Z.div_mod i 2) at 2 by lia.
  rewrite Z.add_comm, Z.even_add_mul_2.
  pose proof (Z.mod_pos_bound i 2 ltac:(lia)) as B.
  destruct (Z.eqb_spec (i mod 2) 0) as [E|N]; [rewrite E; reflexivity|].
  replace (i mod 2) with 1 by lia. reflexivity.
Qed.

(** The header commands leave the background of a data row alone. *)
Lemma base_style_background (nrows col row : Z) :
  1 <= row ->
  fold_left (paint nrows 5 col row) base_tbl_style None = None.
Proof.
  intros H. unfold base_tbl_style, paint, covers, resolve_index.
  cbn.
  destruct (Z.leb_spec row 0); [lia|].
  rewrite !andb_false_r. reflexivity.
Qed.

(** The command of row [i] paints the cells of row [i] and no other. *)
Lemma paint_alt_row (nrows col row i : Z) (acc : option Color) :
  0 <= col < 5 -> 0 <= i ->
  paint nrows 5 col row acc (alt_row_cmd i)
  = if i =? row then Some TABLE_ALT_ROW else acc.
Proof.
  intros C I. unfold paint, alt_row_cmd, covers, resolve_index.
  cbn [cmd_name cmd_start cmd_stop cmd_args].
  change (String.eqb "BACKGROUND" "BACKGROUND") with true.
  destruct (Z.ltb_spec i 0); [lia|].
  change (0 <? 0) with false. change (-1 <? 0) with true. cbn [andb].
  destruct (Z.leb_spec 0 col); [|lia].
  destruct (Z.leb_spec col (-1 + 5)); [|lia].
  destruct (Z.eqb_spec i row) as [->|N].
  - rewrite Z.leb_refl. reflexivity.
  - destruct (Z.leb_spec i row); destruct (Z.leb_spec row i); try reflexivity. lia.
Qed.

Lemma alt_rows_background (nrows col row : Z) (rows : list Z) :
  0 <= col < 5 -> (forall i, In i rows -> 0 <= i) ->
  forall acc,
    fold_left (paint nrows 5 col row)
      (flat_map (fun i => if i mod 2 =? 0 then [alt_row_cmd i] else []) rows) acc
    = if existsb (fun i => (i mod 2 =? 0) && (i =? row)) rows
      then Some TABLE_ALT_ROW else acc.
Proof.
  intros C. induction rows as [|i rest IH]; intros P acc; [reflexivity|].
  cbn [flat_map existsb]. rewrite fold_left_app.
  rewrite IH by (intros j Hj; apply P; right; assumption).
  destruct (i mod 2 =? 0); cbn [fold_left andb orb]; [|reflexivity].
  rewrite paint_alt_row by (try assumption; apply P; left; reflexivity).
  destruct (i =? row); cbn [orb]; [|reflexivity].
  destruct (existsb _ rest); reflexivity.
Qed.

(** C6: in the item table of a rendered invoice, the cells of the data row
    at the 1-based position [p] have the alternate shade as background when
    [p] is even and no background (the default) when [p] is odd; the style
    holds the command that shades row [p] exactly when [p] is even. *)
Theorem even_data_rows_are_shaded (alg : sum_algorithm)
    (data : BookingInvoiceRequest) (story : list Flowable) :
  build_story alg data = Ok story ->
  exists tbl,
    item_table_of story = Some tbl
    /\ List.length (table_data tbl) = S (List.length (items data))
    /\ forall p,
        1 <= p <= Z.of_nat (List.length (items data)) ->
        (In (mk_cmd "BACKGROUND" (0, p) (-1, p) [ArgColor TABLE_ALT_ROW]) (table_style tbl)
         <-> Z.even p = true)
        /\ forall col,
            0 <= col < 5 ->
            cell_background (table_style tbl)
              (Z.of_nat (List.length (table_data tbl))) 5 col p
            = if Z.even p then Some TABLE_ALT_ROW else None.
Proof.
  intros H. apply build_story_inv in H as (rows & t & Hrows & _ & ->).
  destruct (item_rows_spec _ _ _ _ _ Hrows) as [L _].
  eexists. split; [reflexivity|].
  cbn [items_table table_data table_style List.length]. rewrite L.
  split; [reflexivity|].
  intros p Hp. split.
  - rewrite in_app_iff. split.
    + intros [B|A].
      * exfalso. cbn in B.
        repeat (destruct B as [B|B]; [discriminate B || (injection B; intros; lia)|]).
        exact B.
      * unfold alt_row_cmds in A. apply in_flat_map in A as (i & Hi & A).
        rewrite mod_2_even in A. destruct (Z.even i) eqn:E; [|contradiction].
        destruct A as [A|[]]. injection A as ->. exact E.
    + intros E. right. unfold alt_row_cmds. apply in_flat_map. exists p.
      split; [apply in_range; lia|].
      rewrite mod_2_even, E. left. reflexivity.
  - intros col C. unfold cell_background. rewrite fold_left_app.
    rewrite base_style_background by lia.
    unfold alt_row_cmds.
    rewrite alt_rows_background
      by (try assumption; intros i Hi; apply in_range in Hi; lia).
    destruct (Z.even p) eqn:E.
    + replace (existsb _ _) with true; [reflexivity|].
      symmetry. apply existsb_exists. exists p.
      split; [apply in_range; lia|].
      rewrite mod_2_even, E, Z.eqb_refl. reflexivity.
    + replace (existsb _ _) with false; [reflexivity|].
      symmetry. apply not_true_is_false. intros X.
      apply existsb_exists in X as (i & _ & X).
      apply andb_prop in X as [X1 X2]. apply Z.eqb_eq in X2. subst i.
      rewrite mod_2_even in X1. congruence.
Qed.

Lemma even_data_rows_are_shaded_witness :
  build_story left_to_right sample_request
  = Ok (story_of (build_story left_to_right sample_request))
  /\ option_map
       (fun tbl => map (fun p => cell_background (table_style tbl) 3 5 0 p) [1; 2])
       (item_table_of (story_of (build_story left_to_right sample_request)))
     = Some [None; Some TABLE_ALT_ROW].
Proof.
  assert (H : build_story left_to_right sample_request
              = Ok (story_of (build_story left_to_right sample_request)))
    by (vm_compute; reflexivity).
  split; [exact H|].
  destruct (even_data_rows_are_shaded left_to_right sample_request _ H)
    as (tbl & E & L & P).
  rewrite E. cbn [option_map map]. rewrite L in P.
  change (Z.of_nat (S (List.length (items sample_request)))) with 3 in P.
  rewrite (proj2 (P 1 ltac:(cbn; lia)) 0 ltac:(lia)).
  rewrite (proj2 (P 2 ltac:(cbn; lia)) 0 ltac:(lia)).
  reflexivity.
Defined.





(** C10, counterexample: a valid request built with the four optional
    fields left out, ten units at [1e308]: its totals block shows the
    subtotal [$inf] and the total [$nan]. *)
Lemma default_request_total_can_differ :
  valid_request overflowing_request = true
  /\ overflowing_request
     = new_request "INV-BIG" "Solo Traveler" "solo@test.com" "456 Side St"
         (mk_date 2026 1 1) (mk_date 2026 2 1) "Guide A"
         [mk_BookingItem "Charter" 10 f1e308] None None None None
  /\ option_map value_texts
       (totals_block_of (story_of (build_story left_to_right overflowing_request)))
     = Some ["$inf"; "$nan"; "−$0.00"; "<b>$nan</b>"]
  /\ option_map value_texts
       (totals_block_of (story_of (build_story neumaier overflowing_request)))
     = Some ["$inf"; "$nan"; "−$0.00"; "<b>$nan</b>"]
  /\ feq nan inf = false.
Proof. repeat split; vm_compute; reflexivity. Qed.

(** C10 (amended): a request built without tax rate, discount, currency
    and notes has the tax rate [0.0], the discount [0.0], the currency
    [USD] and no notes.  When it is rendered, every amount shown is
    prefixed [$], there is no notes region, and the total equals the
    subtotal provided the subtotal is finite. *)
Theorem defaults_of_the_optional_fields (alg : sum_algorithm)
    (invoice_number customer_name customer_email customer_address : string)
    (booking_date due_date : date) (guide_name : string)
    (its : list BookingItem) :
  let data :=
    new_request invoice_number customer_name customer_email customer_address
      booking_date due_date guide_name its None None None None in
  tax_rate data = zero
  /\ discount data = zero
  /\ currency data = "USD"
  /\ notes data = None
  /\ forall story,
      build_story alg data = Ok story ->
      has_notes_region story = false
      /\ exists t,
          compute_totals alg data = Ok t
          /\ (is_finite (subtotal t) = true -> feq (total t) (subtotal t) = true)
          /\ amount_texts story
             = List.app
                 (flat_map
                    (fun it =>
                       ["$" ++ format_comma_2f (unit_price it);
                        "$" ++ format_comma_2f
                                 (fmul (round_int (quantity it)) (unit_price it))])
                    its)
                 ["$" ++ format_comma_2f (subtotal t);
                  "$" ++ format_comma_2f (tax_amount t);
                  "−" ++ "$" ++ format_comma_2f zero;
                  "<b>" ++ ("$" ++ format_comma_2f (total t)) ++ "</b>"].
Proof.
  intros data. do 4 (split; [reflexivity|]).
  intros story H.
  split; [apply notes_region_of_story in H as [-> _]; reflexivity|].
  destruct (amount_texts_of_story _ _ _ H) as (t & Ht & E).
  exists t. split; [assumption|]. split.
  - intros F. apply compute_totals_inv in Ht as (_ & _ & _ & Hx & Htot).
    rewrite Htot, Hx. apply total_without_tax_and_discount; [assumption | reflexivity..].
  - rewrite E. reflexivity.
Qed.

Lemma defaults_of_the_optional_fields_witness :
  build_story left_to_right single_item_request
  = Ok (story_of (build_story left_to_right single_item_request))
  /\ has_notes_region (story_of (build_story left_to_right single_item_request)) = false
  /\ amount_texts (story_of (build_story left_to_right single_item_request))
     = ["$100.00"; "$100.00"; "$100.00"; "$0.00"; "−$0.00"; "<b>$100.00</b>"].
Proof.
  assert (H : build_story left_to_right single_item_request
              = Ok (story_of (build_story left_to_right single_item_request)))
    by (vm_compute; reflexivity).
  split; [exact H|].
  destruct (defaults_of_the_optional_fields left_to_right "INV-SINGLE" "Solo Traveler"
              "solo@test.com" "456 Side St" (mk_date 2026 1 1) (mk_date 2026 2 1)
              "Guide A" [mk_BookingItem "Single Tour" 1 f100_0])
    as (_ & _ & _ & _ & P).
  destruct (P _ H) as (N & t & Ht & _ & E).
  split; [exact N|].
  rewrite E. vm_compute in Ht. injection Ht as <-. vm_compute. reflexivity.
Defined.

(** * Further properties of the code *)

Import PyFloat PyFormat Models Reportlab PdfGenerator Observations Samples FloatClasses.
Import Labels.
Import FloatFacts FormatFacts StoryFacts.

(** ** Exactly which quantities make the generator raise *)

Module OverflowFacts.
Import PyFloat PyFormat Models Reportlab PdfGenerator Observations.
Import FloatFacts StoryFacts.








End OverflowFacts.

(** ** The totals are numbers unless an input is infinite *)

Module NumberFacts.
Import PyFloat PyFormat Models Reportlab PdfGenerator Observations FloatClasses.
Import FloatFacts StoryFacts.

Lemma shr_fexp_nonneg (m e : Z) (l : location) :
  0 <= m -> 0 <= shr_m (fst (shr_fexp prec emax m e l)).
Proof.
  intros H. unfold shr_fexp, shr.
  assert (S : shr_m (shr_record_of_loc m l) = m) by (destruct l as [|[]]; reflexivity).
  destruct (fexp prec emax (Zdigits2 m + e) - e) as [|p|p]; cbn [fst]; try (rewrite S; exact H).
  destruct (shr_iter p (shr_record_of_loc m l)) as [M _]; [rewrite S; exact H|].
  rewrite M, S. apply Z.div_pos; [exact H | apply Z.pow_pos_nonneg; lia].
Qed.

(** Rounding a non-negative mantissa never gives NaN, and keeps the sign. *)
Lemma binary_round_aux_has_sign (sx : bool) (mx ex : Z) (lx : location) :
  0 <= mx -> has_sign sx (binary_round_aux prec emax sx mx ex lx) = true.
Proof.
  intros H. unfold binary_round_aux.
  pose proof (shr_fexp_nonneg mx ex lx H) as N1.
  destruct (shr_fexp prec emax mx ex lx) as [mrs' e']. cbn [fst] in N1.
  pose proof (round_nearest_even_bounds mrs') as [[RB _] _].
  pose proof (shr_fexp_nonneg _ e' loc_Exact (Z.le_trans _ _ _ N1 RB)) as N2.
  destruct (shr_fexp prec emax _ e' loc_Exact) as [mrs'' e'']. cbn [fst] in N2.
  destruct (shr_m mrs'') as [|m|m]; [| |lia]; cbn [has_sign].
  - apply Bool.eqb_reflx.
  - destruct (e'' <=? emax - prec); cbn [has_sign]; apply Bool.eqb_reflx.
Qed.

Lemma binary_normalize_not_nan (m e : Z) : is_nan (binary_normalize prec emax m e false) = false.
Proof.
  unfold binary_normalize, binary_round. destruct m as [|p|p]; [reflexivity | |].
  - destruct (shl_align p e _) as [mz ez].
    pose proof (binary_round_aux_has_sign false (Zpos mz) ez loc_Exact ltac:(lia)) as S.
    destruct (binary_round_aux _ _ _ _ _ _); try reflexivity; discriminate.
  - destruct (shl_align p e _) as [mz ez].
    pose proof (binary_round_aux_has_sign true (Zpos mz) ez loc_Exact ltac:(lia)) as S.
    destruct (binary_round_aux _ _ _ _ _ _); try reflexivity; discriminate.
Qed.

Lemma has_sign_not_nan (sx : bool) (x : float) : has_sign sx x = true -> is_nan x = false.
Proof. destruct x; try reflexivity; discriminate. Qed.

(** Products, quotients by [100], sums and differences. *)
Lemma fmul_finite_not_nan (x y : float) :
  is_finite x = true -> is_finite y = true -> is_nan (fmul x y) = false.
Proof.
  destruct x as [sx|sx| |sx mx ex], y as [sy|sy| |sy my ey]; try discriminate;
    intros _ _; try reflexivity.
  unfold fmul, SFmul. apply (has_sign_not_nan (xorb sx sy)).
  apply binary_round_aux_has_sign. lia.
Qed.

Lemma fdiv_hundred_not_nan (x : float) : is_nan x = false -> is_nan (fdiv x hundred) = false.
Proof.
  rewrite hundred_value.
  destruct x as [sx|sx| |sx mx ex]; try discriminate; intros _; try reflexivity.
  unfold fdiv, SFdiv.
  destruct (SFdiv_core_binary prec emax (Zpos mx) ex 7036874417766400 (-46))
    as [[mz ez] lz] eqn:E.
  apply (has_sign_not_nan (xorb sx false)). apply binary_round_aux_has_sign.
  unfold SFdiv_core_binary in E.
  set (m' := match _ with Zpos _ => _ | Z0 => _ | Zneg _ => _ end) in E.
  assert (Hm : 0 <= m').
  { unfold m'. destruct (_ - _ - _) as [|s|s]; try lia. apply Z.shiftl_nonneg. lia. }
  pose proof (Z_div_mod m' 7036874417766400 ltac:(lia)) as DM.
  destruct (Z.div_eucl m' 7036874417766400) as [q r].
  injection E as <- _ _. nia.
Qed.

Lemma fadd_not_nan (x y : float) :
  is_finite x = true -> is_nan y = false -> is_nan (fadd x y) = false.
Proof.
  destruct x as [sx|sx| |sx mx ex], y as [sy|sy| |sy my ey]; try discriminate;
    intros _ _; try reflexivity.
  - destruct sx, sy; reflexivity.
  - apply binary_normalize_not_nan.
Qed.

Lemma fsub_not_nan (x y : float) :
  is_nan x = false -> is_finite y = true -> is_nan (fsub x y) = false.
Proof.
  destruct x as [sx|sx| |sx mx ex], y as [sy|sy| |sy my ey]; try discriminate;
    intros _ _; try reflexivity.
  - destruct sx, sy; reflexivity.
  - apply binary_normalize_not_nan.
Qed.

(** With a finite subtotal, a finite tax rate and a finite discount, the tax
    amount and the total of a request are numbers or infinities, never
    NaN: NaN in the totals block takes an infinite input (claims C1 and C10
    show one, a subtotal that overflowed). *)
Theorem finite_inputs_give_number_totals (alg : sum_algorithm)
    (data : BookingInvoiceRequest) (t : Totals) :
  compute_totals alg data = Ok t ->
  is_finite (subtotal t) = true ->
  is_finite (tax_rate data) = true ->
  is_finite (discount data) = true ->
  is_nan (tax_amount t) = false /\ is_nan (total t) = false.
Proof.
  intros H Fs Fr Fd.
  apply compute_totals_inv in H as (_ & _ & _ & Hx & Ht).
  assert (Nx : is_nan (tax_amount t) = false).
  { rewrite Hx. apply fdiv_hundred_not_nan, fmul_finite_not_nan; assumption. }
  split; [exact Nx|].
  rewrite Ht. apply fsub_not_nan; [|assumption]. apply fadd_not_nan; assumption.
Qed.


(** ** The amounts and the subtotal of a valid request *)

(** A non-zero integer does not round to zero. *)
Lemma binary_round_int_not_zero (sx : bool) (mx : positive) :
  is_zero (binary_round prec emax sx mx 0) = false.
Proof.
  pose proof (digits2_pos_lower mx) as L. pose proof (digits2_pos_upper mx) as U.
  set (d := Zpos (digits2_pos mx)) in *.
  assert (D1 : 1 <= d) by (unfold d; lia).
  unfold binary_round. rewrite Z.add_0_r. fold d. rewrite fexp_normal by lia.
  unfold shl_align.
  destruct (d - 53 - 0) as [|q|q] eqn:Q.
  - rewrite binary_round_aux_in_format; [reflexivity | fold d; lia | lia].
  - unfold binary_round_aux.
    assert (S1 : fexp prec emax (Zdigits2 (Zpos mx) + 0) - 0 = Zpos q).
    { simpl Zdigits2. fold d. rewrite Z.add_0_r, fexp_normal by lia. lia. }
    rewrite (shr_fexp_exact_shift _ _ _ S1). cbv beta iota zeta.
    destruct (shr_iter q (Build_shr_record (Zpos mx) false false)) as [M R]; [simpl; lia|].
    simpl shr_m in M, R.
    set (mrs' := iter_pos shr_1 q (Build_shr_record (Zpos mx) false false)) in *.
    destruct (round_nearest_even_bounds mrs') as [RB RU].
    set (mr := round_nearest_even (shr_m mrs') (loc_of_shr_record mrs')) in *.
    assert (Pq : 0 < 2 ^ Zpos q) by (apply Z.pow_pos_nonneg; lia).
    assert (Ed : d = 53 + Zpos q) by lia.
    assert (Lm : 2 ^ 52 <= shr_m mrs').
    { rewrite M. apply Z.div_le_lower_bound; [lia|].
      replace (d - 1) with (Zpos q + 52) in L by lia. rewrite Z.pow_add_r in L by lia. lia. }
    assert (Um : shr_m mrs' < 2 ^ 53).
    { rewrite M. apply Z.div_lt_upper_bound; [lia|].
      rewrite Ed, Z.add_comm, Z.pow_add_r in U by lia. lia. }
    destruct mr as [|qq|qq] eqn:Emr; [lia| |lia].
    assert (Dq1 : 52 < Zpos (digits2_pos qq)) by (apply digits2_pos_gt; lia).
    assert (Dq2 : Zpos (digits2_pos qq) <= 54).
    { apply digits2_pos_le. change (2 ^ 54) with (2 * 2 ^ 53). lia. }
    destruct (Z.eq_dec (Zpos (digits2_pos qq)) 53) as [E53|N53].
    + assert (S2 : fexp prec emax (Zdigits2 (Zpos qq) + (0 + Zpos q)) - (0 + Zpos q) <= 0).
      { simpl Zdigits2. rewrite E53, fexp_normal by lia. lia. }
      rewrite (shr_fexp_exact_noshift _ _ S2). simpl shr_m.
      destruct (_ <=? _); reflexivity.
    + assert (S2 : fexp prec emax (Zdigits2 (Zpos qq) + (0 + Zpos q)) - (0 + Zpos q) = Zpos 1).
      { simpl Zdigits2. rewrite fexp_normal by lia. lia. }
      rewrite (shr_fexp_exact_shift _ _ _ S2).
      change (iter_pos shr_1 1 ?r) with (shr_1 r).
      assert (M2 : shr_m (shr_1 (Build_shr_record (Zpos qq) false false)) = Zpos qq / 2).
      { apply (shr_1_m (Build_shr_record (Zpos qq) false false)). simpl. lia. }
      rewrite M2.
      assert (Hpos : 0 < Zpos qq / 2).
      { apply Z.div_str_pos. assert (0 < 2 ^ 52) by (apply Z.pow_pos_nonneg; lia). lia. }
      destruct (Zpos qq / 2) as [|h|h]; [lia| |lia].
      destruct (_ <=? _); reflexivity.
  - rewrite binary_round_aux_in_format; [reflexivity | rewrite digits2_pos_iter_xO; fold d; lia | lia].
Qed.

(** The float of a quantity of at least one is a positive number. *)
Lemma float_of_positive_int (z : Z) (f : float) :
  1 <= z -> float_of_int z = Ok f -> exists m e, f = S754_finite false m e.
Proof.
  intros P H. destruct z as [|p|p]; try lia.
  unfold float_of_int, round_int, binary_normalize in H.
  pose proof (binary_round_int_not_zero false p) as NZ.
  assert (S : has_sign false (binary_round prec emax false p 0) = true).
  { unfold binary_round. destruct (shl_align p 0 _) as [mz ez].
    apply binary_round_aux_has_sign. lia. }
  destruct (binary_round prec emax false p 0) as [s|s| |s m e]; try discriminate.
  injection H as <-. destruct s; [discriminate S|]. eauto.
Qed.

Lemma fle_zero_not_negative (x : float) : fle zero x = true <-> not_negative x = true.
Proof. destruct x as [s|[|]| |[|] m e]; split; intros H; try reflexivity; discriminate. Qed.

(** The amount of a valid item: not NaN, not negative. *)
Lemma valid_item_amount (it : BookingItem) (a : float) :
  valid_item it = true ->
  int_mul_float (quantity it) (unit_price it) = Ok a ->
  not_negative a = true.
Proof.
  unfold valid_item, int_mul_float. intros V H.
  apply andb_prop in V as [Vq Vp]. apply Z.leb_le in Vq.
  apply fle_zero_not_negative in Vp.
  apply bind_Ok_inv in H as (fq & Hq & H). injection H as <-.
  destruct (float_of_positive_int _ _ Vq Hq) as (m & e & ->).
  destruct (unit_price it) as [s|s| |s mp ep]; try discriminate.
  - reflexivity.
  - destruct s; [discriminate | reflexivity].
  - destruct s; [discriminate|].
    unfold fmul, SFmul.
    pose proof (binary_round_aux_has_sign (xorb false false) (Zpos (m * mp)) (e + ep)
                  loc_Exact ltac:(lia)) as S.
    destruct (binary_round_aux _ _ _ _ _ _) as [s|s| |s m' e']; try discriminate;
      try reflexivity; destruct s; try discriminate; reflexivity.
Qed.

(** Sums of such amounts stay so, whichever way they are added. *)
Lemma fadd_not_negative (x y : float) :
  not_negative x = true -> not_negative y = true -> not_negative (fadd x y) = true.
Proof.
  destruct x as [sx|sx| |sx mx ex], y as [sy|sy| |sy my ey]; try discriminate;
    intros Hx Hy; try assumption; try reflexivity.
  - destruct sx, sy; reflexivity.
  - destruct sx, sy; try discriminate. reflexivity.
  - destruct sx, sy; try discriminate.
    unfold fadd, SFadd, cond_Zopp, binary_normalize, binary_round.
    rewrite <- Pos2Z.inj_add.
    destruct (shl_align _ _ _) as [mz ez].
    pose proof (binary_round_aux_has_sign false (Zpos mz) ez loc_Exact ltac:(lia)) as S.
    destruct (binary_round_aux _ _ _ _ _ _) as [s|s| |s m' e']; try discriminate;
      try reflexivity; destruct s; try discriminate; reflexivity.
Qed.

Lemma sum_plain_not_negative (xs : list float) :
  Forall (fun x => not_negative x = true) xs ->
  forall acc, not_negative acc = true -> not_negative (sum_plain acc xs) = true.
Proof.
  induction 1 as [|x rest Hx _ IH]; intros acc Ha; [exact Ha|].
  apply IH. apply fadd_not_negative; assumption.
Qed.

(** The compensated sum is the plain sum, or the plain sum plus a finite
    correction. *)
Lemma sum_neumaier_form (xs : list float) :
  forall f c,
    sum_neumaier f c xs = sum_plain f xs
    \/ exists c', is_finite c' = true /\ sum_neumaier f c xs = fadd (sum_plain f xs) c'.
Proof.
  induction xs as [|x rest IH]; intros f c; cbn [sum_neumaier sum_plain].
  - destruct (negb (is_zero c) && is_finite c) eqn:E; [right | left; reflexivity].
    apply andb_prop in E as [_ E]. eauto.
  - apply IH.
Qed.

Lemma fadd_finite_not_nan_r (x c : float) :
  is_nan x = false -> is_finite c = true -> is_nan (fadd x c) = false.
Proof.
  destruct x as [sx|sx| |sx mx ex], c as [sy|sy| |sy my ey]; try discriminate;
    intros _ _; try reflexivity.
  - destruct sx, sy; reflexivity.
  - apply binary_normalize_not_nan.
Qed.

Lemma not_negative_not_nan (x : float) : not_negative x = true -> is_nan x = false.
Proof. destruct x; try reflexivity; discriminate. Qed.

Lemma py_sum_not_nan (alg : sum_algorithm) (xs : list float) :
  Forall (fun x => not_negative x = true) xs -> is_nan (py_sum alg xs) = false.
Proof.
  intros H. destruct xs as [|x rest]; [reflexivity|].
  inversion H as [|? ? Hx Hrest]; subst.
  assert (P : not_negative (sum_plain (fadd zero x) rest) = true).
  { apply sum_plain_not_negative; [assumption|].
    apply fadd_not_negative; [reflexivity | assumption]. }
  destruct alg; cbn [py_sum].
  - apply not_negative_not_nan; assumption.
  - destruct (sum_neumaier_form rest (fadd zero x) zero) as [->|(c' & Fc & ->)].
    + apply not_negative_not_nan; assumption.
    + apply fadd_finite_not_nan_r; [apply not_negative_not_nan|]; assumption.
Qed.

Lemma valid_amounts (its : list BookingItem) (amounts : list float) :
  forallb valid_item its = true ->
  Forall2 (fun it a => int_mul_float (quantity it) (unit_price it) = Ok a) its amounts ->
  Forall (fun a => not_negative a = true) amounts.
Proof.
  intros V H. induction H as [|it a its amounts Ha _ IH]; [constructor|].
  cbn [forallb] in V. apply andb_prop in V as [Vi V].
  constructor; [exact (valid_item_amount _ _ Vi Ha) | apply IH; exact V].
Qed.

Lemma tax_rate_in_range_is_finite (r : float) :
  fle zero r = true -> fle r hundred = true -> is_finite r = true.
Proof.
  rewrite hundred_value. destruct r as [s|[|]| |s m e]; intros L U; try reflexivity;
    discriminate.
Qed.

(** For a valid request that is rendered, every line amount is a number at
    least zero or the positive infinity, the subtotal is not NaN with
    either summation (added from left to right it is not negative either),
    and the tax rate is finite. *)
Theorem valid_request_amounts_are_not_negative (alg : sum_algorithm)
    (data : BookingInvoiceRequest) (t : Totals) :
  valid_request data = true ->
  compute_totals alg data = Ok t ->
  Forall (fun it => fle zero (fmul (round_int (quantity it)) (unit_price it)) = true)
    (items data)
  /\ is_nan (subtotal t) = false
  /\ (alg = left_to_right -> fle zero (subtotal t) = true)
  /\ is_finite (tax_rate data) = true.
Proof.
  intros V H. unfold valid_request in V.
  apply andb_prop in V as [V _]. apply andb_prop in V as [V R2].
  apply andb_prop in V as [V R1]. apply andb_prop in V as [_ V].
  apply compute_totals_inv in H as (amounts & Ha & Hs & _ & _).
  pose proof (valid_amounts _ _ V Ha) as N.
  split; [|split; [|split]]; [| | |exact (tax_rate_in_range_is_finite _ R1 R2)].
  - clear Hs V. induction Ha as [|it a its amounts Hi _ IH]; [constructor|].
    inversion N as [|? ? Na Nrest]; subst.
    constructor; [|apply IH; assumption].
    unfold int_mul_float, float_of_int in Hi.
    destruct (round_int (quantity it)) eqn:E; simpl in Hi; try discriminate;
      injection Hi as <-; apply fle_zero_not_negative; exact Na.
  - rewrite Hs. apply py_sum_not_nan. exact N.
  - intros ->. rewrite Hs. apply fle_zero_not_negative.
    destruct amounts as [|x rest]; [reflexivity|].
    inversion N; subst. cbn [py_sum].
    apply sum_plain_not_negative; [assumption|].
    apply fadd_not_negative; [reflexivity | assumption].
Qed.

End NumberFacts.

(** ** Every table of a story is well formed *)

Module LayoutFacts.
Import Layout.

Lemma item_rows_cells (styles : StyleSheet) (sym : string) (its : list BookingItem) :
  forall idx rows,
    item_rows styles sym idx its = Ok rows ->
    forallb (fun row => Nat.eqb (List.length row) 5) rows = true.
Proof.
  induction its as [|it rest IH]; cbn [item_rows]; intros idx rows H.
  - injection H as <-. reflexivity.
  - apply bind_Ok_inv in H as (row & Hrow & H).
    apply bind_Ok_inv in H as (rows' & Hrows & H).
    injection H as <-.
    apply item_row_inv in Hrow as (amount & _ & ->).
    cbn [forallb]. rewrite (IH _ _ Hrows). reflexivity.
Qed.

Lemma in_range_indices (n : Z) :
  0 < n ->
  index_in_range n 0 = true /\ index_in_range n (-1) = true
  /\ resolve_index n 0 = 0 /\ resolve_index n (-1) = n - 1.
Proof.
  intros H. unfold index_in_range, resolve_index.
  change (0 <? 0) with false. change (-1 <? 0) with true. cbv iota.
  repeat split; try lia;
    apply andb_true_intro; split; try apply Z.leb_le; try apply Z.ltb_lt; lia.
Qed.

Lemma base_tbl_style_in_range (nrows : Z) :
  0 < nrows -> forallb (cmd_in_range nrows 5) base_tbl_style = true.
Proof.
  intros H. destruct (in_range_indices nrows H) as (I0 & I1 & R0 & R1).
  unfold base_tbl_style, cmd_in_range. cbn [forallb cmd_start cmd_stop].
  rewrite I0, I1, R0, R1.
  change (index_in_range 5 0) with true. change (index_in_range 5 (-1)) with true.
  change (resolve_index 5 0 <=? resolve_index 5 (-1)) with true.
  cbn [andb]. rewrite Z.leb_refl.
  destruct (Z.leb_spec 0 (nrows - 1)); [reflexivity | lia].
Qed.

Lemma alt_row_cmds_in_range (nrows : Z) :
  forallb (cmd_in_range nrows 5) (alt_row_cmds nrows) = true.
Proof.
  apply forallb_forall. intros c Hc. unfold alt_row_cmds in Hc.
  apply in_flat_map in Hc as (i & Hi & Hc). apply in_range in Hi.
  destruct (i mod 2 =? 0); [|contradiction].
  destruct Hc as [<-|[]].
  unfold cmd_in_range, alt_row_cmd, index_in_range, resolve_index.
  cbn [cmd_start cmd_stop].
  change (0 <? 0) with false. change (-1 <? 0) with true. cbv iota.
  destruct (Z.ltb_spec i 0); [lia|].
  change (0 <=? 0) with true. change (0 <? 5) with true.
  change (0 <=? -1 + 5) with true. change (-1 + 5 <? 5) with true. cbn [andb].
  rewrite Z.leb_refl.
  destruct (Z.leb_spec 0 i); [|lia]. destruct (Z.ltb_spec i nrows); [reflexivity | lia].
Qed.

(** Whatever the request, each table handed to the engine is well formed:
    it has a row, each of its rows has as many cells as the table has
    column widths (two, two, five and three), and each of its style
    commands, the shading of the alternate rows included, addresses
    cells that exist. *)
Theorem story_tables_are_well_formed (alg : sum_algorithm)
    (data : BookingInvoiceRequest) (story : list Flowable) :
  build_story alg data = Ok story ->
  Forall (fun f => well_formed f = true) story
  /\ map (fun f => List.length (table_widths f)) story
     = (([2; 0; 2; 0; 5; 0; 3]
         ++ map (fun _ => 0) (notes_region _build_styles data)
         ++ [0; 0; 0])%nat)%list.
Proof.
  intros H. apply build_story_inv in H as (rows & t & Hrows & _ & ->).
  split.
  - apply Forall_app. split; [|apply Forall_app; split].
    + repeat constructor.
      unfold items_table, well_formed.
      cbn [List.length negb Nat.eqb andb forallb col_widths header_row].
      rewrite (item_rows_cells _ _ _ _ _ Hrows). cbn [andb].
      rewrite forallb_app.
      rewrite base_tbl_style_in_range by lia.
      rewrite alt_row_cmds_in_range. reflexivity.
    + unfold notes_region. destruct (truthy (notes data)); repeat constructor.
    + repeat constructor.
  - unfold notes_region. destruct (truthy (notes data)); reflexivity.
Qed.

End LayoutFacts.

(** ** The currency prefix and the text of an amount *)

Module MoneyFacts.
Import MoneyText.

Lemma append_space_inj (a b : string) : a ++ " " = b ++ " " -> a = b.
Proof.
  revert b. induction a as [|c a IH]; intros [|d b] H; cbn in H.
  - reflexivity.
  - injection H as _ H. destruct b; discriminate.
  - injection H as _ H. destruct a; discriminate.
  - injection H as -> H. f_equal. apply IH. exact H.
Qed.

(** The prefix tells the currency: two currencies with the same prefix are
    the same currency.  In particular only [USD] is written [$]: a code
    such as [usd] or [US$] keeps its own text and a space. *)
Theorem symbol_prefix_is_injective (c1 c2 : string) :
  (symbol_prefix c1 = symbol_prefix c2 <-> c1 = c2)
  /\ (symbol_prefix c1 = "$" <-> c1 = "USD").
Proof.
  assert (D : forall c, c <> "USD" -> symbol_prefix c <> "$").
  { intros c N. unfold symbol_prefix.
    destruct (String.eqb_spec c "USD"); [contradiction|].
    destruct c as [|x [|y r]]; cbn; discriminate. }
  split; split.
  - unfold symbol_prefix at 1 2.
    destruct (String.eqb_spec c1 "USD") as [->|N1];
      destruct (String.eqb_spec c2 "USD") as [->|N2]; intros H.
    + reflexivity.
    + exfalso. apply (D c2 N2). unfold symbol_prefix.
      destruct (String.eqb_spec c2 "USD"); [contradiction | auto].
    + exfalso. apply (D c1 N1). unfold symbol_prefix.
      destruct (String.eqb_spec c1 "USD"); [contradiction | auto].
    + apply append_space_inj. exact H.
  - intros ->. reflexivity.
  - intros H. destruct (string_dec c1 "USD") as [E|N]; [exact E|].
    exfalso. exact (D c1 N H).
  - intros ->. reflexivity.
Qed.

(** Taking the separators out gives the digits back. *)
Lemma remove_commas_group_thousands (ds : string) :
  all_digits ds = true -> remove_commas (group_thousands ds) = ds.
Proof.
  induction ds as [|c rest IH]; intros D; [reflexivity|].
  simpl in D. apply andb_prop in D as [Dc D].
  assert (Nc : Ascii.eqb c "," = false).
  { destruct (Ascii.eqb_spec c ","); [subst; discriminate | reflexivity]. }
  cbn [group_thousands]. cbv zeta.
  destruct (_ && _)%bool; cbn [remove_commas]; rewrite Nc;
    [change (Ascii.eqb "," ",") with true; cbv iota|]; rewrite IH by assumption;
    reflexivity.
Qed.

Lemma int_text_str_int (z : Z) : int_text (str_int z) = Some z.
Proof.
  unfold int_text, str_int. rewrite NilZero.isi.
  - cbn [option_map]. rewrite DecimalZ.of_to. reflexivity.
  - destruct z as [|p|p]; try discriminate. cbn. intros E. injection E as E.
    exact (DecimalPos.Unsigned.to_uint_nonnil p E).
  - destruct z as [|p|p]; try discriminate. cbn. intros E. injection E as E.
    exact (DecimalPos.Unsigned.to_uint_nonnil p E).
Qed.

Lemma int_text_zero_pad (k : Z) : 0 <= k < 100 -> int_text (zero_pad 2 k) = Some k.
Proof.
  assert (A : forall n, (n < 100)%nat -> int_text (zero_pad 2 (Z.of_nat n)) = Some (Z.of_nat n)).
  { intros n B. do 100 (destruct n as [|n]; [vm_compute; reflexivity|]). lia. }
  intros H. rewrite <- (Z2Nat.id k) by lia. apply A. lia.
Qed.

Lemma read_fixed2 (n : Z) : 0 <= n -> read_unsigned_money (fixed2 n) = Some n.
Proof.
  intros H. unfold read_unsigned_money, fixed2.
  assert (Q : 0 <= n / 100) by (apply Z.div_pos; lia).
  destruct (str_int_digits _ Q) as [D _].
  pose proof (Z.mod_pos_bound n 100 ltac:(lia)) as B.
  change ("." ++ zero_pad 2 (n mod 100)) with (String "." (zero_pad 2 (n mod 100))).
  rewrite split_at_point_app by (apply group_thousands_point_free; assumption).
  rewrite remove_commas_group_thousands by assumption.
  rewrite int_text_str_int, int_text_zero_pad by assumption.
  rewrite zero_pad_two_digits by assumption.
  f_equal. pose proof (Z.div_mod n 100 ltac:(lia)). lia.
Qed.

(** The hundredths are the value times [100], rounded to the nearest
    integer. *)
Lemma hundredths_is_nearest (m : positive) (e : Z) :
  (0 <= e -> hundredths m e = 100 * Zpos m * 2 ^ e)
  /\ (e < 0 -> 2 * Z.abs (hundredths m e * 2 ^ (- e) - 100 * Zpos m) <= 2 ^ (- e)).
Proof.
  unfold hundredths. split; intros H.
  - destruct (Z.leb_spec 0 e); [ring | lia].
  - destruct (Z.leb_spec 0 e); [lia|].
    assert (P : 0 < 2 ^ (- e)) by (apply Z.pow_pos_nonneg; lia).
    pose proof (Z.div_mod (Zpos m * 100) (2 ^ (- e)) ltac:(lia)) as DM.
    pose proof (Z.mod_pos_bound (Zpos m * 100) (2 ^ (- e)) P) as B.
    set (q := Zpos m * 100 / 2 ^ (- e)) in *.
    set (r := (Zpos m * 100) mod 2 ^ (- e)) in *.
    destruct (Z.compare_spec (2 * r) (2 ^ (- e))) as [E|L|G];
      [destruct (Z.even q)| |]; nia.
Qed.

(** The text [_currency] writes after the prefix for a finite value reads
    back, separators taken out, as the sign of the value and its magnitude
    in hundredths rounded to the nearest (a tie to the even one): what is
    shown is never off by more than half a hundredth. *)
Theorem amount_text_reads_back (s : bool) (m : positive) (e : Z) (sym : string) :
  _currency (S754_finite s m e) sym = sym ++ format_comma_2f (S754_finite s m e)
  /\ read_money (format_comma_2f (S754_finite s m e)) = Some (s, hundredths m e)
  /\ read_money (format_comma_2f (S754_zero s)) = Some (s, 0)
  /\ (0 <= e -> hundredths m e = 100 * Zpos m * 2 ^ e)
  /\ (e < 0 -> 2 * Z.abs (hundredths m e * 2 ^ (- e) - 100 * Zpos m) <= 2 ^ (- e)).
Proof.
  split; [reflexivity|]. split; [|split; [destruct s; reflexivity | apply hundredths_is_nearest]].
  unfold format_comma_2f.
  pose proof (hundredths_nonneg m e) as H.
  destruct s; cbn [sign_prefix].
  - change ("-" ++ fixed2 (hundredths m e)) with (String "-" (fixed2 (hundredths m e))).
    cbn [read_money]. rewrite Ascii.eqb_refl, read_fixed2 by assumption. reflexivity.
  - change (EmptyString ++ fixed2 (hundredths m e)) with (fixed2 (hundredths m e)).
    destruct (fixed2_starts_with_digit _ H) as (c & rest & E & Dc).
    pose proof (read_fixed2 _ H) as R. rewrite E in *.
    cbn [read_money]. rewrite (digit_not_minus c Dc), R. reflexivity.
Qed.

End MoneyFacts.

(** ** The endpoint *)

Module MainFacts.
Import Main OverflowFacts.


End MainFacts.

(** ** The tax label, the dates and the empty item list *)

Module LabelFacts.
Import MoneyText MoneyFacts.

(** [repr] gives a rate of at most two decimals back as it is written. *)
Lemma repr_of_two_decimals (k : Z) :
  0 <= k <= 10000 -> float_repr (decimal k 2) = plain_decimal k.
Proof.
  intros H.
  assert (A : forallb (fun j => String.eqb (float_repr (decimal j 2)) (plain_decimal j))
                (range 0 10001) = true) by (vm_compute; reflexivity).
  rewrite forallb_forall in A. apply String.eqb_eq, A, in_range. lia.
Qed.

(** The tax line is labelled with the rate as [repr] writes it: for a rate
    of at most two decimals between 0 and 100, given as [k] hundredths,
    that is the rate as one writes it, with one decimal at least
    ([Tax (7.0%)], [Tax (7.5%)], [Tax (7.25%)]); the other labels are
    fixed. *)
Theorem tax_label_shows_the_rate (alg : sum_algorithm)
    (data : BookingInvoiceRequest) (story : list Flowable) (k : Z) :
  0 <= k <= 10000 ->
  tax_rate data = decimal k 2 ->
  build_story alg data = Ok story ->
  exists tbl,
    totals_block_of story = Some tbl
    /\ label_texts tbl
       = ["<b>Subtotal</b>"; "<b>Tax (" ++ plain_decimal k ++ "%)</b>";
          "<b>Discount</b>"; "<b>TOTAL</b>"].
Proof.
  intros K R H. apply build_story_inv in H as (rows & t & _ & _ & ->).
  eexists. split; [reflexivity|].
  cbn [totals_table label_texts map nth cell_text].
  rewrite R, repr_of_two_decimals by exact K. reflexivity.
Qed.


Lemma append_cancel_l (a x y : string) : a ++ x = a ++ y -> x = y.
Proof.
  induction a as [|c a IH]; cbn; intros H; [exact H|].
  injection H as H. apply IH. exact H.
Qed.

Lemma zero_pad_2_inj (a b : Z) (x y : string) :
  0 <= a < 100 -> 0 <= b < 100 ->
  zero_pad 2 a ++ x = zero_pad 2 b ++ y -> a = b /\ x = y.
Proof.
  intros A B H.
  pose proof (zero_pad_two_digits a A) as Ta. pose proof (zero_pad_two_digits b B) as Tb.
  pose proof (int_text_zero_pad a A) as Ra. pose proof (int_text_zero_pad b B) as Rb.
  destruct (zero_pad 2 a) as [|a1 [|a2 [|]]]; try discriminate.
  destruct (zero_pad 2 b) as [|b1 [|b2 [|]]]; try discriminate.
  cbn in H. injection H as -> -> H.
  rewrite Ra in Rb. injection Rb as ->. auto.
Qed.

Lemma str_int_inj (a b : Z) : str_int a = str_int b -> a = b.
Proof.
  intros H. pose proof (int_text_str_int a) as Ra.
  rewrite H, int_text_str_int in Ra. injection Ra as ->. reflexivity.
Qed.

Lemma month_name_inj (m1 m2 : Z) (x y : string) :
  1 <= m1 <= 12 -> 1 <= m2 <= 12 ->
  month_name m1 ++ " " ++ x = month_name m2 ++ " " ++ y -> m1 = m2 /\ x = y.
Proof.
  intros M1 M2 H.
  assert (I1 : In m1 [1; 2; 3; 4; 5; 6; 7; 8; 9; 10; 11; 12]) by (cbn; lia).
  assert (I2 : In m2 [1; 2; 3; 4; 5; 6; 7; 8; 9; 10; 11; 12]) by (cbn; lia).
  clear M1 M2. cbn in I1, I2.
  repeat (destruct I1 as [<-|I1]); try contradiction;
    repeat (destruct I2 as [<-|I2]); try contradiction;
    cbn in H; first [discriminate H | split; [reflexivity|]];
    repeat (injection H as H); exact H.
Qed.

(** The long date format is unambiguous: two dates of the calendar that are
    written alike are the same date; the day takes two digits, as in
    [January 01, 2026]. *)
Theorem long_dates_are_unambiguous (d1 d2 : date) :
  plausible_date d1 = true -> plausible_date d2 = true ->
  strftime_long d1 = strftime_long d2 -> d1 = d2.
Proof.
  destruct d1 as [y1 m1 a1], d2 as [y2 m2 a2]. unfold plausible_date, strftime_long.
  cbn [year month day]. intros P1 P2 H.
  repeat (apply andb_prop in P1 as [P1 ?]). repeat (apply andb_prop in P2 as [P2 ?]).
  repeat match goal with
         | X : (_ <=? _) = true |- _ => apply Z.leb_le in X
         end.
  apply month_name_inj in H as [-> H]; [|lia|lia].
  apply zero_pad_2_inj in H as [-> H]; [|lia|lia].
  apply (append_cancel_l ", ") in H. apply str_int_inj in H. subst. reflexivity.
Qed.

End LabelFacts.

(** Witnesses on the sample requests. *)
Lemma finite_inputs_give_number_totals_witness :
  compute_totals left_to_right sample_request
  = Ok (mk_totals
          (S754_finite false 6860952557322240 (-45))
          (S754_finite false 7684266864200909 (-49))
          (S754_finite false 6989375515446477 (-45)))
  /\ is_nan (S754_finite false 7684266864200909 (-49)) = false
  /\ is_nan (S754_finite false 6989375515446477 (-45)) = false.
Proof.
  assert (H : compute_totals left_to_right sample_request
              = Ok (mk_totals
                      (S754_finite false 6860952557322240 (-45))
                      (S754_finite false 7684266864200909 (-49))
                      (S754_finite false 6989375515446477 (-45))))
    by (vm_compute; reflexivity).
  split; [exact H|].
  exact (NumberFacts.finite_inputs_give_number_totals left_to_right
           sample_request _ H eq_refl eq_refl eq_refl).
Defined.

Lemma valid_request_amounts_are_not_negative_witness :
  valid_request overflowing_request = true
  /\ compute_totals neumaier overflowing_request
     = Ok (mk_totals inf nan nan)
  /\ is_nan inf = false.
Proof.
  assert (V : valid_request overflowing_request = true)
    by (vm_compute; reflexivity).
  assert (H : compute_totals neumaier overflowing_request
              = Ok (mk_totals inf nan nan))
    by (vm_compute; reflexivity).
  split; [exact V|]. split; [exact H|].
  exact (proj1 (proj2 (NumberFacts.valid_request_amounts_are_not_negative
                         neumaier overflowing_request _ V H))).
Defined.

Lemma story_tables_are_well_formed_witness :
  build_story left_to_right sample_request
  = Ok (story_of (build_story left_to_right sample_request))
  /\ Forall (fun f => Layout.well_formed f = true)
       (story_of (build_story left_to_right sample_request)).
Proof.
  assert (H : build_story left_to_right sample_request
              = Ok (story_of (build_story left_to_right sample_request)))
    by (vm_compute; reflexivity).
  split; [exact H|].
  exact (proj1 (LayoutFacts.story_tables_are_well_formed left_to_right sample_request
                  _ H)).
Defined.

Lemma tax_label_shows_the_rate_witness :
  0 <= 700 <= 10000
  /\ tax_rate sample_request = decimal 700 2
  /\ build_story left_to_right sample_request
     = Ok (story_of (build_story left_to_right sample_request))
  /\ option_map label_texts
       (totals_block_of (story_of (build_story left_to_right sample_request)))
     = Some ["<b>Subtotal</b>"; "<b>Tax (7.0%)</b>"; "<b>Discount</b>"; "<b>TOTAL</b>"].
Proof.
  assert (K : 0 <= 700 <= 10000) by lia.
  assert (R : tax_rate sample_request = decimal 700 2) by (vm_compute; reflexivity).
  assert (H : build_story left_to_right sample_request
              = Ok (story_of (build_story left_to_right sample_request)))
    by (vm_compute; reflexivity).
  split; [exact K|]. split; [exact R|]. split; [exact H|].
  destruct (LabelFacts.tax_label_shows_the_rate left_to_right sample_request _ 700 K R H)
    as (tbl & E & L).
  rewrite E. cbn [option_map]. rewrite L. reflexivity.
Defined.


Lemma long_dates_are_unambiguous_witness :
  plausible_date (mk_date 2026 2 17) = true
  /\ plausible_date (mk_date 2026 2 17) = true
  /\ strftime_long (mk_date 2026 2 17) = "February 17, 2026"
  /\ mk_date 2026 2 17 = mk_date 2026 2 17.
Proof.
  split; [reflexivity|]. split; [reflexivity|]. split; [reflexivity|].
  exact (LabelFacts.long_dates_are_unambiguous (mk_date 2026 2 17) (mk_date 2026 2 17)
           eq_refl eq_refl eq_refl).
Defined.
